(** * LLDP configuration translator (src/conf_mode/lldp.py)

  A shallow embedding of the read -> verify -> generate -> apply pipeline
  of [lldp.py], and the properties of its natural-language specification
  settled against it.

  Conventions of the embedding.
  - Python [str] values are [string]s (characters are code points below
    256, where [\d] and [[0-9]] coincide and [int()] knows only the ASCII
    digits).
  - A configuration path such as ['service lldp interface {0}'.format(name)]
    is kept as its list of words [["service"; "lldp"; "interface"; name]].
  - Exceptions are results of an error type; the file system, the issued
    shell commands and the standard output are an explicit [world]. *)

From Stdlib Require Import String Ascii List ZArith Bool Lia.
From stdpp Require Import base option gmap strings.
Import ListNotations.

Set Warnings "-register-all".
Local Open Scope string_scope.
Local Open Scope list_scope.

(** ** Regular expressions as the script uses them ([re.match]) *)

Module Re.

Inductive regex : Type :=
| Void : regex
| Eps : regex
| Class (ranges : list (ascii * ascii)) : regex
| Seq (r1 r2 : regex) : regex
| Alt (r1 r2 : regex) : regex
| Star (r : regex) : regex.

Definition in_range (c : ascii) (p : ascii * ascii) : bool :=
  (nat_of_ascii (fst p) <=? nat_of_ascii c)%nat
  && (nat_of_ascii c <=? nat_of_ascii (snd p))%nat.

Definition in_class (c : ascii) (ranges : list (ascii * ascii)) : bool :=
  existsb (in_range c) ranges.

(** Derived forms: [r+], [r?], [r{m}] followed by up to [k] more,
    a literal word. *)
Definition Plus (r : regex) : regex := Seq r (Star r).
Definition Opt (r : regex) : regex := Alt r Eps.
Definition Chr (c : ascii) : regex := Class [(c, c)].

Fixpoint UpTo (k : nat) (r : regex) : regex :=
  match k with
  | O => Eps
  | S k' => Opt (Seq r (UpTo k' r))
  end.

Fixpoint Exactly (m : nat) (r : regex) (rest : regex) : regex :=
  match m with
  | O => rest
  | S m' => Seq r (Exactly m' r rest)
  end.

(** [r{m,n}] *)
Definition Repeat (m n : nat) (r : regex) : regex :=
  Exactly m r (UpTo (n - m) r).

Fixpoint Lit (s : string) : regex :=
  match s with
  | EmptyString => Eps
  | String c s' => Seq (Chr c) (Lit s')
  end.

Fixpoint nullable (r : regex) : bool :=
  match r with
  | Void => false
  | Eps => true
  | Class _ => false
  | Seq r1 r2 => nullable r1 && nullable r2
  | Alt r1 r2 => nullable r1 || nullable r2
  | Star _ => true
  end.

Fixpoint deriv (c : ascii) (r : regex) : regex :=
  match r with
  | Void => Void
  | Eps => Void
  | Class ranges => if in_class c ranges then Eps else Void
  | Seq r1 r2 =>
      if nullable r1
      then Alt (Seq (deriv c r1) r2) (deriv c r2)
      else Seq (deriv c r1) r2
  | Alt r1 r2 => Alt (deriv c r1) (deriv c r2)
  | Star r1 => Seq (deriv c r1) (Star r1)
  end.

Fixpoint matches (r : regex) (s : list ascii) : bool :=
  match s with
  | [] => nullable r
  | c :: s' => matches (deriv c r) s'
  end.

(** The language of a regular expression, as a relation. *)
Inductive lang : regex -> list ascii -> Prop :=
| lang_eps : lang Eps []
| lang_class c ranges : in_class c ranges = true -> lang (Class ranges) [c]
| lang_seq r1 r2 s1 s2 : lang r1 s1 -> lang r2 s2 -> lang (Seq r1 r2) (s1 ++ s2)
| lang_alt_l r1 r2 s : lang r1 s -> lang (Alt r1 r2) s
| lang_alt_r r1 r2 s : lang r2 s -> lang (Alt r1 r2) s
| lang_star_nil r : lang (Star r) []
| lang_star_cons r s1 s2 :
    lang r s1 -> lang (Star r) s2 -> lang (Star r) (s1 ++ s2).

(** Every character of [s] is in the class. *)
Definition all_in (ranges : list (ascii * ascii)) (s : list ascii) : Prop :=
  Forall (fun c => in_class c ranges = true) s.

Definition newline : ascii := ascii_of_nat 10.

(** [re.match(r'^body$', s) is not None].  [re.match] anchors at the start
    of the string; without [re.MULTILINE] the [$] matches at the end of the
    string and also just before a line feed that is the last character. *)
Definition match_to_dollar (body : regex) (s : list ascii) : bool :=
  matches body s
  || match rev s with
     | c :: rs => Ascii.eqb c newline && matches body (rev rs)
     | [] => false
     end.

Definition re_match (body : regex) (s : string) : bool :=
  match_to_dollar body (list_ascii_of_string s).

End Re.

(** ** The Python built-ins the script relies on *)

Module Py.

Definition nl : string := String (ascii_of_nat 10) EmptyString.
Definition dq : string := String (ascii_of_nat 34) EmptyString.

(** Truthiness of a value that is [None] or a [str]: [if x:]. *)
Definition truthy (v : option string) : bool :=
  match v with
  | Some s => negb (String.eqb s EmptyString)
  | None => false
  end.

(** [str.isspace] on one character (code points below 256). *)
Definition is_space (c : ascii) : bool :=
  let n := nat_of_ascii c in
  ((9 <=? n) && (n <=? 13) || (28 <=? n) && (n <=? 32)
   || (n =? 133) || (n =? 160))%nat.

Definition is_digit (c : ascii) : bool :=
  let n := nat_of_ascii c in ((48 <=? n) && (n <=? 57))%nat.

Definition digit_value (c : ascii) : Z := Z.of_nat (nat_of_ascii c - 48).

(** The white space that [int()] drops around a number: the ASCII blanks
    (tab to carriage return, and the space) and the two blanks above 127
    (next line, no-break space).  The separators 28 to 31, white space for
    [str.isspace], are not: [int] of such a character and a digit raises. *)
Definition is_int_space (c : ascii) : bool :=
  let n := nat_of_ascii c in
  ((9 <=? n) && (n <=? 13) || (n =? 32) || (n =? 133) || (n =? 160))%nat.

Fixpoint lstrip (s : list ascii) : list ascii :=
  match s with
  | c :: s' => if is_int_space c then lstrip s' else s
  | [] => []
  end.

Definition strip (s : list ascii) : list ascii :=
  rev (lstrip (rev (lstrip s))).

(** Decimal digits, a single underscore allowed between two digits. *)
Fixpoint digits (acc : Z) (after_digit : bool) (s : list ascii) : option Z :=
  match s with
  | [] => if after_digit then Some acc else None
  | c :: s' =>
      if is_digit c then digits (10 * acc + digit_value c) true s'
      else if Ascii.eqb c "_"%char && after_digit then digits acc false s'
      else None
  end.

(** [int(s)] for a [str] argument, base 10: surrounding white space is
    dropped, one sign is allowed; [None] stands for [ValueError].  (The
    limit on the number of digits of recent interpreters is left out.) *)
Definition int (s : string) : option Z :=
  match strip (list_ascii_of_string s) with
  | "+"%char :: d => digits 0 false d
  | "-"%char :: d => option_map Z.opp (digits 0 false d)
  | d => digits 0 false d
  end.

(** [n in range(lo, hi)] *)
Definition in_range (n lo hi : Z) : bool := ((lo <=? n) && (n <? hi))%Z.

(** [s.split()]: the maximal runs of characters that are not white space. *)
Fixpoint split_from (cur : list ascii) (s : list ascii) : list string :=
  match s with
  | [] => match cur with [] => [] | _ => [string_of_list_ascii (rev cur)] end
  | c :: s' =>
      if is_space c
      then match cur with
           | [] => split_from [] s'
           | _ => string_of_list_ascii (rev cur) :: split_from [] s'
           end
      else split_from (c :: cur) s'
  end.

Definition split (s : string) : list string :=
  split_from [] (list_ascii_of_string s).

(** [sep.join(l)] *)
Fixpoint join (sep : string) (l : list string) : string :=
  match l with
  | [] => EmptyString
  | [x] => x
  | x :: l' => String.append x (String.append sep (join sep l'))
  end.

(** The exceptions that can leave the script's functions. *)
Inductive exn : Type :=
| ConfigError (msg : string)
| TypeError
| ValueError
| KeyError
| IndexError
| FileNotFoundError.

Inductive result (A : Type) : Type :=
| Ok (a : A)
| Raise (e : exn).
Arguments Ok {A} a.
Arguments Raise {A} e.

Definition bind {A B} (r : result A) (k : A -> result B) : result B :=
  match r with
  | Ok a => k a
  | Raise e => Raise e
  end.

(** [for x in l: body(x)], stopping at the first exception. *)
Fixpoint for_each {A} (body : A -> result unit) (l : list A) : result unit :=
  match l with
  | [] => Ok tt
  | x :: l' => bind (body x) (fun _ => for_each body l')
  end.

End Py.

Notation "'let?' x ':=' c 'in' k" := (Py.bind c (fun x => k))
(at level 10, x name, c at level 100, k at level 200).
Notation "c1 ;; c2" := (Py.bind c1 (fun _ => c2))
(at level 100, right associativity).

(** ** The configuration accessor *)

(** Modelled from the spec: the Config accessor [vyos.config.Config], which
  is imported by the script and not part of it: a hierarchical key-value
  store with a settable current scope, path-scoped existence checks, scalar
  value retrieval and child-node listing, all of them read-only queries. *)
Module Config.

Inductive node : Type :=
| Node (value : option string) (children : list (string * node)).

Definition value (n : node) : option string :=
  match n with Node v _ => v end.

Definition children (n : node) : list (string * node) :=
  match n with Node _ ch => ch end.

Fixpoint find_child (w : string) (ch : list (string * node)) : option node :=
  match ch with
  | [] => None
  | (k, n) :: ch' => if String.eqb k w then Some n else find_child w ch'
  end.

Fixpoint lookup (path : list string) (n : node) : option node :=
  match path with
  | [] => Some n
  | w :: path' =>
      match find_child w (children n) with
      | Some c => lookup path' c
      | None => None
      end
  end.

(** The accessor object: the configuration and the current scope. *)
Record t : Type := mk { tree : node; level : list string }.

(** [Config()] *)
Definition new (tr : node) : t := mk tr [].

(** A computation that uses (and re-scopes) the accessor. *)
Definition M (A : Type) : Type := t -> A * t.

Definition ret {A} (a : A) : M A := fun c => (a, c).
Definition bind {A B} (m : M A) (k : A -> M B) : M B :=
  fun c => let (a, c') := m c in k a c'.

Definition set_level (path : list string) : M unit :=
  fun c => (tt, mk (tree c) path).

Definition exists_ (path : list string) : M bool :=
  fun c => (match lookup (level c ++ path) (tree c) with
            | Some _ => true
            | None => false
            end, c).

Definition return_value (path : list string) : M (option string) :=
  fun c => (match lookup (level c ++ path) (tree c) with
            | Some n => value n
            | None => None
            end, c).

Definition list_nodes (path : list string) : M (list string) :=
  fun c => (match lookup (level c ++ path) (tree c) with
            | Some n => map fst (children n)
            | None => []
            end, c).

(** [for x in l: acc.append(body(x))] *)
Fixpoint map_m {A B} (body : A -> M B) (l : list A) : M (list B) :=
  match l with
  | [] => ret []
  | x :: l' =>
      bind (body x) (fun y => bind (map_m body l') (fun ys => ret (y :: ys)))
  end.

Definition run {A} (m : M A) (c : t) : A := fst (m c).

End Config.

Notation "'let*' x ':=' c 'in' k" := (Config.bind c (fun x => k))
(at level 10, x name, c at level 100, k at level 200).
Notation "c1 '>>' c2" := (Config.bind c1 (fun _ => c2))
(at level 100, right associativity).

(** ** The service model and its extraction from the configuration *)

Module Lldp.
Import Py.

(** [lldp['options']] *)
Record options : Type := mk_options {
  listen_vlan : bool;
  addr : option string;
  snmp : bool;
  sys_snmp : option bool;   (* the key is set only when [snmp] is true *)
  cdp : bool;
  edp : bool;
  fdp : bool;
  sonmp : bool;
  description : string;
  listen_on : list string
}.

(** An element of [lldp['interface_list']]: keys ['name'], ['disable']. *)
Record interface : Type := mk_interface {
  intf_name : string;
  intf_disable : bool
}.

(** An element of [civic_based['ca_type']]: keys ['name'], ['ca_val']. *)
Record ca_type : Type := mk_ca_type {
  ca_name : string;
  ca_val : option string
}.

(** A populated [civic_based] dictionary. *)
Record civic : Type := mk_civic {
  country_code : option string;
  ca_types : list ca_type
}.

(** A populated [coordinate_based] dictionary. *)
Record coordinate : Type := mk_coordinate {
  altitude : option string;
  latitude : option string;
  longitude : option string;
  datum : option string
}.

(** The dictionary built by [get_location_intf].  For [civic_based] and
    [coordinate_based], [None] is the empty dictionary [{}]. *)
Record location : Type := mk_location {
  loc_name : string;
  civic_based : option civic;
  elin : option string;
  coordinate_based : option coordinate
}.

(** What [get_location_intf] returns: the integer [0] or a dictionary. *)
Inductive entry : Type :=
| EntryInt (z : Z)
| EntryLoc (l : location).

(** What [get_location] returns: the integer [0] or a list. *)
Inductive locations : Type :=
| LocInt (z : Z)
| LocList (l : list entry).

(** What [get_interface_list] returns: the integer [0] or a list. *)
Inductive interfaces : Type :=
| IntfInt (z : Z)
| IntfList (l : list interface).

Record lldp : Type := mk_lldp {
  opts : options;               (* lldp['options'] *)
  interface_list : interfaces;  (* lldp['interface_list'] *)
  location_list : locations     (* lldp['location'] *)
}.

Definition service_lldp : list string := ["service"; "lldp"].

Definition get_options : Config.M options :=
  Config.set_level service_lldp >>
  let* o_listen_vlan := Config.exists_ ["listen-vlan"] in
  let* o_addr := Config.return_value ["management-address"] in
  let* o_snmp := Config.exists_ ["snmp"; "enable"] in
  let* o_sys_snmp :=
    (if o_snmp
     then Config.set_level [] >>
          let* s := Config.exists_ ["service"; "snmp"] in
          Config.set_level service_lldp >>
          Config.ret (Some s)
     else Config.ret None) in
  Config.set_level (service_lldp ++ ["legacy-protocols"]) >>
  let* o_cdp := Config.exists_ ["cdp"] in
  let* o_edp := Config.exists_ ["edp"] in
  let* o_fdp := Config.exists_ ["fdp"] in
  let* o_sonmp := Config.exists_ ["sonmp"] in
  Config.ret (mk_options o_listen_vlan o_addr o_snmp o_sys_snmp
                         o_cdp o_edp o_fdp o_sonmp "unknown" []).

Definition get_interface_list : Config.M interfaces :=
  Config.set_level service_lldp >>
  let* intfs_names := Config.list_nodes ["interface"] in
  if (Z.of_nat (length intfs_names) <? 0)%Z then Config.ret (IntfInt 0)
  else
    let* interface_list :=
      Config.map_m
        (fun name =>
           Config.set_level (service_lldp ++ ["interface"; name]) >>
           let* disable := Config.exists_ ["disable"] in
           Config.ret (mk_interface name disable))
        intfs_names in
    Config.ret (IntfList interface_list).

Definition get_location_intf (name : string) : Config.M entry :=
  let path := service_lldp ++ ["interface"; name] in
  Config.set_level path >>
  let* has_location := Config.exists_ ["location"] in
  if has_location then Config.ret (EntryInt 0)
  else
    Config.set_level (path ++ ["location"]) >>
    let* has_civic := Config.exists_ ["civic-based"] in
    if has_civic then
      Config.set_level (path ++ ["location"; "civic-based"]) >>
      let* cc := Config.return_value ["country-code"] in
      let* ca_types_names := Config.list_nodes ["ca-type"] in
      let* ca :=
        (match ca_types_names with
         | [] => Config.ret []
         | _ =>
             Config.map_m
               (fun ca_types_name =>
                  Config.set_level
                    (path ++ ["location"; "civic-based"; "ca-type";
                              ca_types_name]) >>
                  let* v := Config.return_value ["ca-value"] in
                  Config.ret (mk_ca_type ca_types_name v))
               ca_types_names
         end) in
      Config.ret (EntryLoc (mk_location name (Some (mk_civic cc ca))
                                        None None))
    else
      let* has_elin := Config.exists_ ["elin"] in
      if has_elin then
        let* e := Config.return_value ["elin"] in
        Config.ret (EntryLoc (mk_location name None e None))
      else
        let* has_coordinate := Config.exists_ ["coordinate-based"] in
        if has_coordinate then
          Config.set_level (path ++ ["location"; "coordinate-based"]) >>
          let* c_altitude := Config.return_value ["altitude"] in
          let* c_latitude := Config.return_value ["latitude"] in
          let* c_longitude := Config.return_value ["longitude"] in
          let* c_datum := Config.return_value ["datum"] in
          Config.ret
            (EntryLoc (mk_location name None None
                         (Some (mk_coordinate c_altitude c_latitude
                                              c_longitude c_datum))))
        else
          Config.ret (EntryLoc (mk_location name None None None)).

Definition get_location : Config.M locations :=
  Config.set_level service_lldp >>
  let* intfs_names := Config.list_nodes ["interface"] in
  if (Z.of_nat (length intfs_names) <? 0)%Z then Config.ret (LocInt 0)
  else
    let* disabled := Config.exists_ ["disable"] in
    if disabled then Config.ret (LocInt 0)
    else
      let* intfs_location := Config.map_m get_location_intf intfs_names in
      Config.ret (LocList intfs_location).

(** [get_config()], for the configuration [tr] that [Config()] opens;
    [None] is Python's [None]. *)
Definition get_config (tr : Config.node) : option lldp :=
  Config.run
    (let* present := Config.exists_ service_lldp in
     if negb present then Config.ret None
     else
       let* o := get_options in
       let* i := get_interface_list in
       let* l := get_location in
       Config.ret (Some (mk_lldp o i l)))
    (Config.new tr).

End Lldp.

(** ** The validator *)

Module Verify.
Import Py Re Lldp.

Definition app3 (a b c : string) : string :=
  String.append a (String.append b c).

(** ['Invalid location for interface {0}:\n' 'rest'.format(name)] *)
Definition invalid_location (name rest : string) : string :=
  app3 "Invalid location for interface " name
       (app3 ":" nl rest).

Definition msg_one_type (name : string) : string :=
  String.append "Can only configure 1 location type for interface " name.
Definition msg_country_code_missing (name : string) : string :=
  invalid_location name "must configure the country code".
Definition msg_country_code_invalid (name : string) : string :=
  invalid_location name "country-code must be 2 characters".
Definition msg_ca_type_missing (name : string) : string :=
  invalid_location name "must define at least 1 ca-type".
Definition msg_ca_type_range (name : string) : string :=
  invalid_location name "ca-type must between 0-128".
Definition msg_ca_value_missing (name ca : string) : string :=
  invalid_location name
    (String.append "must configure the ca-value for ca-type " ca).
Definition msg_longitude_missing (name : string) : string :=
  String.append "Must define longitude for interface " name.
Definition msg_latitude_missing (name : string) : string :=
  String.append "Must define latitude for interface " name.
Definition msg_latitude_invalid (name : string) : string :=
  invalid_location name "latitude should be a number followed by S or N".
Definition msg_longitude_invalid (name : string) : string :=
  invalid_location name "longitude should be a number followed by E or W".
Definition msg_altitude_invalid (name : string) : string :=
  invalid_location name "altitude should be a positive or negative number".
(** This literal is double-quoted in the source, so the inner quotes and
    the indentation of the continued line are part of the message. *)
Definition msg_datum_invalid (name : string) : string :=
  invalid_location name
    (String.append "' "
       (String.append "                                      "
          "'datum should be WGS84, NAD83, or MLLW")).
Definition msg_elin_invalid (name : string) : string :=
  invalid_location name "ELIN number must be between 10-25 numbers".
Definition msg_snmp : string :=
  "SNMP must be configured to enable LLDP SNMP".

Definition digit : regex := Class [("0"%char, "9"%char)].

(** [^[a-zA-Z]{2}$] *)
Definition re_country_code : regex :=
  Repeat 2 2 (Class [("a"%char, "z"%char); ("A"%char, "Z"%char)]).

(** [(\d+)(\.\d+)?] *)
Definition re_number : regex :=
  Seq (Plus digit) (Opt (Seq (Chr "."%char) (Plus digit))).

(** [^(\d+)(\.\d+)?[nNsS]$] *)
Definition re_latitude : regex :=
  Seq re_number
      (Class [("n"%char, "n"%char); ("N"%char, "N"%char);
              ("s"%char, "s"%char); ("S"%char, "S"%char)]).

(** [^(\d+)(\.\d+)?[eEwW]$] *)
Definition re_longitude : regex :=
  Seq re_number
      (Class [("e"%char, "e"%char); ("E"%char, "E"%char);
              ("w"%char, "w"%char); ("W"%char, "W"%char)]).

(** [^[-+0-9\.]+$] *)
Definition re_altitude : regex :=
  Plus (Class [("-"%char, "-"%char); ("+"%char, "+"%char);
               ("0"%char, "9"%char); ("."%char, "."%char)]).

(** [^(WGS84|NAD83|MLLW)$] *)
Definition re_datum : regex :=
  Alt (Lit "WGS84") (Alt (Lit "NAD83") (Lit "MLLW")).

(** [^[0-9]{10,25}$] *)
Definition re_elin : regex := Repeat 10 25 digit.

(** [if not v: raise ConfigError(missing)], then
    [if not re.match(pattern, v): raise ConfigError(invalid)]. *)
Definition require_match (v : option string) (pattern : regex)
           (invalid : string) : result unit :=
  match v with
  | Some s =>
      if negb (re_match pattern s) then Raise (ConfigError invalid)
      else Ok tt
  | None => Raise TypeError   (* re.match(pattern, None) *)
  end.

(** The body of [for ca_type in location['civic_based']['ca_type']]. *)
Definition verify_ca_type (name : string) (ca : ca_type) : result unit :=
  match Py.int (ca_name ca) with
  | None => Raise ValueError
  | Some n =>
      if negb (Py.in_range n 0 129)
      then Raise (ConfigError (msg_ca_type_range name))
      else if negb (truthy (ca_val ca))
      then Raise (ConfigError (msg_ca_value_missing name (ca_name ca)))
      else Ok tt
  end.

Definition verify_civic (name : string) (loc : location) (cb : civic)
  : result unit :=
  if match coordinate_based loc with Some _ => true | None => false end
     || truthy (elin loc)
  then Raise (ConfigError (msg_one_type name))
  else if negb (truthy (country_code cb))
  then Raise (ConfigError (msg_country_code_missing name))
  else
    require_match (country_code cb) re_country_code
                  (msg_country_code_invalid name) ;;
    if (Z.of_nat (length (ca_types cb)) <? 0)%Z
    then Raise (ConfigError (msg_ca_type_missing name))
    else for_each (verify_ca_type name) (ca_types cb).

Definition verify_coordinate (name : string) (co : coordinate)
  : result unit :=
  if negb (truthy (longitude co))
  then Raise (ConfigError (msg_longitude_missing name))
  else if negb (truthy (latitude co))
  then Raise (ConfigError (msg_latitude_missing name))
  else
    require_match (latitude co) re_latitude (msg_latitude_invalid name) ;;
    require_match (longitude co) re_longitude (msg_longitude_invalid name) ;;
    (if truthy (altitude co)
     then require_match (altitude co) re_altitude (msg_altitude_invalid name)
     else Ok tt) ;;
    (if truthy (datum co)
     then require_match (datum co) re_datum (msg_datum_invalid name)
     else Ok tt).

(** The body of [for location in lldp['location']]. *)
Definition verify_location (e : entry) : result unit :=
  match e with
  | EntryInt _ => Raise TypeError   (* 0['civic_based'] *)
  | EntryLoc loc =>
      match civic_based loc with
      | Some cb => verify_civic (loc_name loc) loc cb
      | None =>
          match coordinate_based loc with
          | Some co => verify_coordinate (loc_name loc) co
          | None =>
              if truthy (elin loc)
              then require_match (elin loc) re_elin
                                 (msg_elin_invalid (loc_name loc))
              else Ok tt
          end
      end
  end.

Definition verify_locations (l : locations) : result unit :=
  match l with
  | LocInt _ => Raise TypeError   (* for location in 0 *)
  | LocList es => for_each verify_location es
  end.

Definition verify_options (o : options) : result unit :=
  if snmp o then
    match sys_snmp o with
    | None => Raise KeyError
    | Some s => if negb s then Raise (ConfigError msg_snmp) else Ok tt
    end
  else Ok tt.

Definition verify (c : option lldp) : result unit :=
  match c with
  | None => Ok tt
  | Some m => verify_locations (location_list m) ;; verify_options (opts m)
  end.

End Verify.

(** ** The template engine *)

(** [jinja2.Template(source).render(context)] for the constructs the two
  templates use.  A template is kept as its source text cut at the tags. *)
Module Jinja.

Inductive value : Type :=
| VBool (b : bool)
| VNone
| VStr (s : string)
| VList (l : list string)
| VUndefined.

Inductive node : Type :=
| Text (s : string)                    (* literal template data *)
| Var (x : string)                     (* {{ x }} *)
| Join (x : string) (sep : string)     (* {{ x | join(sep) }} *)
| If (x : string) (body : list node).  (* {% if x %}body{% endif %} *)

Definition template : Type := list node.
Definition context : Type := string -> value.

Definition truthy (v : value) : bool :=
  match v with
  | VBool b => b
  | VNone => false
  | VStr s => negb (String.eqb s EmptyString)
  | VList l => match l with [] => false | _ => true end
  | VUndefined => false
  end.

(** What [{{ x }}] prints.  The templates print strings only; a list is
    shown here without the quoting of [repr]. *)
Definition to_text (v : value) : string :=
  match v with
  | VBool true => "True"
  | VBool false => "False"
  | VNone => "None"
  | VStr s => s
  | VList l => String.append "[" (String.append (Py.join ", " l) "]")
  | VUndefined => EmptyString
  end.

Definition join_filter (v : value) (sep : string) : string :=
  match v with
  | VList l => Py.join sep l
  | VStr s => Py.join sep (map (fun c => String c EmptyString)
                               (list_ascii_of_string s))
  | _ => EmptyString
  end.

Fixpoint render_node (ctx : context) (n : node) : string :=
  match n with
  | Text s => s
  | Var x => to_text (ctx x)
  | Join x sep => join_filter (ctx x) sep
  | If x body =>
      if truthy (ctx x)
      then (fix render_all (l : list node) : string :=
              match l with
              | [] => EmptyString
              | n' :: l' => String.append (render_node ctx n') (render_all l')
              end) body
      else EmptyString
  end.

Fixpoint render (ctx : context) (t : template) : string :=
  match t with
  | [] => EmptyString
  | n :: t' => String.append (render_node ctx n) (render ctx t')
  end.

(** One line feed at the very end of the source is dropped when the
    template is loaded ([keep_trailing_newline] is off by default). *)
Definition chomp (s : string) : string :=
  match rev (list_ascii_of_string s) with
  | c :: r => if Ascii.eqb c Re.newline
              then string_of_list_ascii (rev r) else s
  | [] => s
  end.

Fixpoint Template (source : template) : template :=
  match source with
  | [] => []
  | [Text s] => [Text (chomp s)]
  | n :: t' => n :: Template t'
  end.

End Jinja.

(** ** Rendering, applying and the top-level invocation *)

Module Script.
Import Py Lldp Verify.

(** What the script can observe and change outside itself: the text files,
    the shell commands issued through [os.system], and what was printed. *)
Record world : Type := mk_world {
  files : gmap string string;
  commands : list string;
  stdout : list string
}.

Definition config_file : string := "/etc/default/lldpd".
Definition vyos_config_file : string := "/etc/lldpd.d/01-vyos.conf".
Definition version_file : string := "/opt/vyatta/etc/version".

Definition lldp_tmpl : Jinja.template :=
  [ Jinja.Text
      (String.append nl
         (String.append "### Autogenerated by lldp.py ###"
            (String.append nl
               (String.append "DAEMON_ARGS=" (String.append dq "-M4")))));
    Jinja.If "snmp" [Jinja.Text " -x"];
    Jinja.If "addr" [Jinja.Text " -m "; Jinja.Var "addr"];
    Jinja.If "cdp" [Jinja.Text " -c"];
    Jinja.If "edp" [Jinja.Text " -e"];
    Jinja.If "fdp" [Jinja.Text " -f"];
    Jinja.If "sonmp" [Jinja.Text " -s"];
    Jinja.Text (String.append dq (String.append nl nl)) ].

Definition vyos_tmpl : Jinja.template :=
  [ Jinja.Text
      (String.append nl
         (String.append "### Autogenerated by lldp.py ###"
            (String.append nl
               (String.append nl
                  (String.append "configure system platform VyOS"
                     (String.append nl
                        (String.append "configure system description "
                           (String.append dq "VyOS "))))))));
    Jinja.Var "description";
    Jinja.Text (String.append dq nl);
    Jinja.If "listen_on"
      [ Jinja.Text
          (String.append nl
             (String.append "configure system interface pattern " dq));
        Jinja.Join "listen_on" ",";
        Jinja.Text (String.append dq nl) ];
    Jinja.Text (String.append nl nl) ].

(** The dictionary [lldp['options']] as a rendering context. *)
Definition context_of (o : options) : Jinja.context :=
  fun key =>
    if String.eqb key "listen_vlan" then Jinja.VBool (listen_vlan o)
    else if String.eqb key "addr"
    then match addr o with Some a => Jinja.VStr a | None => Jinja.VNone end
    else if String.eqb key "snmp" then Jinja.VBool (snmp o)
    else if String.eqb key "sys_snmp"
    then match sys_snmp o with
         | Some b => Jinja.VBool b
         | None => Jinja.VUndefined
         end
    else if String.eqb key "cdp" then Jinja.VBool (cdp o)
    else if String.eqb key "edp" then Jinja.VBool (edp o)
    else if String.eqb key "fdp" then Jinja.VBool (fdp o)
    else if String.eqb key "sonmp" then Jinja.VBool (sonmp o)
    else if String.eqb key "description" then Jinja.VStr (description o)
    else if String.eqb key "listen_on" then Jinja.VList (listen_on o)
    else Jinja.VUndefined.

Definition set_description (d : string) (o : options) : options :=
  mk_options (listen_vlan o) (addr o) (snmp o) (sys_snmp o)
             (cdp o) (edp o) (fdp o) (sonmp o) d (listen_on o).

(** [lldp['options']['listen_on'].append(tmp)] *)
Definition append_listen_on (tmp : string) (o : options) : options :=
  mk_options (listen_vlan o) (addr o) (snmp o) (sys_snmp o)
             (cdp o) (edp o) (fdp o) (sonmp o) (description o)
             (listen_on o ++ [tmp]).

(** The body of [for intf in lldp['interface_list']]. *)
Definition listen_entry (intf : interface) : string :=
  String.append (if intf_disable intf then "!" else EmptyString)
                (intf_name intf).

Definition add_listen_on (o : options) (l : list interface) : options :=
  fold_left (fun o' intf => append_listen_on (listen_entry intf) o') l o.

(** [with open(path, 'w') as f: f.write(text)] *)
Definition write_file (path text : string) (w : world) : world :=
  mk_world (<[path := text]> (files w)) (commands w) (stdout w).

(** [os.system(cmd)] *)
Definition system (cmd : string) (w : world) : world :=
  mk_world (files w) (commands w ++ [cmd]) (stdout w).

(** [print(msg)] *)
Definition print (msg : string) (w : world) : world :=
  mk_world (files w) (commands w) (stdout w ++ [msg]).

(** [generate(lldp)]: the model as the call leaves it, and the world. *)
Definition generate (c : option lldp) (w : world)
  : result (option lldp) * world :=
  match c with
  | None => (Ok None, w)
  | Some m =>
      match files w !! version_file with
      | None => (Raise FileNotFoundError, w)
      | Some tmp =>
          match Py.split tmp !! 1%nat with
          | None => (Raise IndexError, w)
          | Some d =>
              let o := set_description d (opts m) in
              match interface_list m with
              | IntfInt _ => (Raise TypeError, w)
              | IntfList l =>
                  let o' := add_listen_on o l in
                  let w1 :=
                    write_file config_file
                      (Jinja.render (context_of o')
                                    (Jinja.Template lldp_tmpl)) w in
                  let w2 :=
                    write_file vyos_config_file
                      (Jinja.render (context_of o')
                                    (Jinja.Template vyos_tmpl)) w1 in
                  (Ok (Some (mk_lldp o' (interface_list m)
                                     (location_list m))), w2)
              end
          end
      end
  end.

(** [apply(lldp)] *)
Definition apply (c : option lldp) (w : world) : result unit * world :=
  match c with
  | Some _ => (Ok tt, system "sudo systemctl restart lldpd.service" w)
  | None =>
      let w1 := system "sudo systemctl stop lldpd.service" w in
      match files w1 !! config_file with
      | Some _ =>
          (Ok tt, mk_world (delete config_file (files w1))
                           (commands w1) (stdout w1))
      | None => (Raise FileNotFoundError, w1)   (* os.unlink *)
      end
  end.

(** How the process ends. *)
Inductive status : Type :=
| Exit (code : Z)
| Uncaught (e : exn).

(** [except ConfigError as e: print(e); sys.exit(1)] *)
Definition handle (e : exn) (w : world) : status * world :=
  match e with
  | ConfigError msg => (Exit 1, print msg w)
  | _ => (Uncaught e, w)
  end.

(** The [__main__] block, run on the configuration [tr]. *)
Definition main (tr : Config.node) (w : world) : status * world :=
  let c := get_config tr in
  match verify c with
  | Raise e => handle e w
  | Ok _ =>
      match generate c w with
      | (Raise e, w1) => handle e w1
      | (Ok c', w1) =>
          match apply c' w1 with
          | (Raise e, w2) => handle e w2
          | (Ok _, w2) => (Exit 0, w2)
          end
      end
  end.

End Script.

(** ** Vocabulary of the statements *)

Module Terms.
Import Py Lldp Verify Script.

(** [conf.exists(path)] from the root scope. *)
Definition present (path : list string) (tr : Config.node) : bool :=
  match Config.lookup path tr with Some _ => true | None => false end.

Definition interface_path (name : string) : list string :=
  service_lldp ++ ["interface"; name].

(** The children of [service lldp interface], in declaration order. *)
Definition declared_interfaces (tr : Config.node) : list string :=
  match Config.lookup (service_lldp ++ ["interface"]) tr with
  | Some n => map fst (Config.children n)
  | None => []
  end.

Definition has_location (tr : Config.node) (name : string) : bool :=
  present (interface_path name ++ ["location"]) tr.

(** A record that carries no location data at all. *)
Definition blank_location (name : string) : location :=
  mk_location name None None None.

(** What [get_location_intf] computes, as a function of the tree. *)
Definition entry_of (tr : Config.node) (name : string) : entry :=
  if has_location tr name then EntryInt 0
  else EntryLoc (blank_location name).

(** An entry that stands for the interface [name]: the integer [0] or a
    record of that name. *)
Definition entry_for (name : string) (e : entry) : Prop :=
  match e with
  | EntryInt z => z = 0%Z
  | EntryLoc loc => loc_name loc = name
  end.

Definition record_named (name : string) (e : entry) : bool :=
  match e with
  | EntryInt _ => false
  | EntryLoc loc => String.eqb (loc_name loc) name
  end.

(** Options with every flag off, as [get_options] builds them for a
    service without children. *)
Definition plain_options : options :=
  mk_options false None false None false false false false "unknown" [].

(** A model with the given locations and options and no interface list
    entries. *)
Definition model_of (o : options) (es : list entry) : lldp :=
  mk_lldp o (IntfList []) (LocList es).

(** A record with civic data only. *)
Definition civic_location (name cc : string) (cas : list ca_type)
  : location :=
  mk_location name (Some (mk_civic (Some cc) cas)) None None.

(** A model in which a civic record stands after the records [before] and
    before the records [after]. *)
Definition civic_model_at (o : options) (before after : list entry)
           (name cc : string) (cas : list ca_type) : lldp :=
  model_of o (before ++ EntryLoc (civic_location name cc cas) :: after).

(** A record with coordinate data only. *)
Definition coordinate_location (name : string) (co : coordinate)
  : location :=
  mk_location name None None (Some co).

(** A record with an elin only. *)
Definition elin_location (name e : string) : location :=
  mk_location name None (Some e) None.

Definition starts_with (c : ascii) (s : string) : bool :=
  match s with
  | String c' _ => Ascii.eqb c' c
  | EmptyString => false
  end.

(** One enabled interface [eth0], one disabled interface [eth1], no SNMP,
    no management address, no legacy protocol. *)
Definition two_interface_model (vlan : bool) (locs : locations) : lldp :=
  mk_lldp (mk_options vlan None false None false false false false
                      "unknown" [])
          (IntfList [mk_interface "eth0" false; mk_interface "eth1" true])
          locs.

Definition header_line : string := "### Autogenerated by lldp.py ###".

Definition daemon_args_line : string :=
  String.append "DAEMON_ARGS=" (String.append dq (String.append "-M4" dq)).

(** File 1 for [two_interface_model]: an empty line, the header, the
    arguments. *)
Definition launch_file_text : string :=
  String.append nl
    (String.append header_line
       (String.append nl (String.append daemon_args_line nl))).

Definition pattern_line (entries : string) : string :=
  String.append "configure system interface pattern "
    (String.append dq (String.append entries dq)).

(** File 2 for [two_interface_model] and the description [d]. *)
Definition native_file_text (d : string) : string :=
  String.append nl
    (String.append header_line
       (String.append nl
          (String.append nl
             (String.append "configure system platform VyOS"
                (String.append nl
                   (String.append "configure system description "
                      (String.append dq
                         (String.append "VyOS "
                            (String.append d
                               (String.append dq
                                  (String.append nl
                                     (String.append nl
                                        (String.append
                                           (pattern_line "eth0,!eth1")
                                           (String.append nl nl)))))))))))))).

Definition version_world : world :=
  mk_world {[version_file := "Version: 1.2.0"]} [] [].

(** [verify] on a model whose only location is [loc], all options off. *)
Definition verify_one (loc : location) : result unit :=
  verify (Some (model_of plain_options [EntryLoc loc])).

Definition all_digits (s : string) : bool :=
  forallb is_digit (list_ascii_of_string s).

Definition is_alpha (c : ascii) : bool :=
  let n := nat_of_ascii c in
  ((65 <=? n) && (n <=? 90) || (97 <=? n) && (n <=? 122))%nat.

(** [c] is one of the characters of [letters]. *)
Definition one_of (letters : string) (c : ascii) : bool :=
  existsb (Ascii.eqb c) (list_ascii_of_string letters).

(** No character of [s] is one of [letters]. *)
Definition lacks (letters : string) (s : string) : bool :=
  forallb (fun c => negb (one_of letters c)) (list_ascii_of_string s).

(** A number: digits, and possibly a point and more digits. *)
Definition number_parts (whole : string) (frac : option string) : bool :=
  all_digits whole && negb (String.eqb whole EmptyString)
  && match frac with
     | Some f => all_digits f && negb (String.eqb f EmptyString)
     | None => true
     end.

Definition number_text (whole : string) (frac : option string) : string :=
  String.append whole
    match frac with
    | Some f => String.append "." f
    | None => EmptyString
    end.

(** A number followed by the single letter [h]. *)
Definition coordinate_text (whole : string) (frac : option string)
           (h : ascii) : string :=
  String.append (number_text whole frac) (String h EmptyString).

(** Coordinate data with latitude and longitude only. *)
Definition lat_lon (lat lon : string) : coordinate :=
  mk_coordinate None (Some lat) (Some lon) None.

Definition leaf (v : string) : Config.node := Config.Node (Some v) [].
Definition branch (ch : list (string * Config.node)) : Config.node :=
  Config.Node None ch.

(** [service lldp interface eth0 location elin 0123456789] and
    [service lldp interface eth1]. *)
Definition config_two_interfaces : Config.node :=
  branch [("service", branch [("lldp", branch [("interface", branch
    [ ("eth0", branch [("location", branch [("elin", leaf "0123456789")])]);
      ("eth1", branch []) ])])])].

(** [service lldp disable] *)
Definition config_disabled : Config.node :=
  branch [("service", branch [("lldp", branch [("disable", branch [])])])].

(** [service lldp snmp enable] without [service snmp]. *)
Definition config_snmp_only : Config.node :=
  branch [("service", branch [("lldp", branch
    [("snmp", branch [("enable", branch [])])])])].

Definition empty_world : world := mk_world ∅ [] [].

End Terms.

(** ** What the extractors read, as functions of the configuration *)

Module Reading.
Import Py Lldp Verify Script Terms.

(** [conf.return_value(path)] from the root scope. *)
Definition value_at (path : list string) (tr : Config.node) : option string :=
  match Config.lookup path tr with
  | Some n => Config.value n
  | None => None
  end.

Definition legacy (protocol : string) (tr : Config.node) : bool :=
  present (service_lldp ++ ["legacy-protocols"; protocol]) tr.

Definition options_of (tr : Config.node) : options :=
  mk_options
    (present (service_lldp ++ ["listen-vlan"]) tr)
    (value_at (service_lldp ++ ["management-address"]) tr)
    (present (service_lldp ++ ["snmp"; "enable"]) tr)
    (if present (service_lldp ++ ["snmp"; "enable"]) tr
     then Some (present ["service"; "snmp"] tr) else None)
    (legacy "cdp" tr) (legacy "edp" tr) (legacy "fdp" tr) (legacy "sonmp" tr)
    "unknown" [].

Definition interface_of (tr : Config.node) (name : string) : interface :=
  mk_interface name (present (interface_path name ++ ["disable"]) tr).

Definition interfaces_of (tr : Config.node) : list interface :=
  map (interface_of tr) (declared_interfaces tr).

Definition locations_of (tr : Config.node) : locations :=
  if present (service_lldp ++ ["disable"]) tr then LocInt 0
  else LocList (map (entry_of tr) (declared_interfaces tr)).

(** Some declared interface has a [location] subtree. *)
Definition some_location (tr : Config.node) : bool :=
  existsb (has_location tr) (declared_interfaces tr).

(** [service lldp snmp enable] is set and [service snmp] is not. *)
Definition snmp_unbacked (tr : Config.node) : bool :=
  present (service_lldp ++ ["snmp"; "enable"]) tr
  && negb (present ["service"; "snmp"] tr).

End Reading.

(** ** The texts of the two generated files *)

Module Texts.
Import Py Lldp Script Terms.

(** The strings of a list, one after the other. *)
Definition cat (parts : list string) : string :=
  fold_right String.append EmptyString parts.

Definition flag (b : bool) (text : string) : string :=
  if b then text else EmptyString.

(** [ -m <addr>] when a management address is set and not empty. *)
Definition addr_flag (a : option string) : string :=
  match a with
  | Some s => if String.eqb s EmptyString then EmptyString
              else String.append " -m " s
  | None => EmptyString
  end.

(** The arguments line of file 1: the flags in the order snmp, address,
    cdp, edp, fdp, sonmp. *)
Definition daemon_args (o : options) : string :=
  cat [ "DAEMON_ARGS="; dq; "-M4";
        flag (snmp o) " -x"; addr_flag (addr o);
        flag (cdp o) " -c"; flag (edp o) " -e";
        flag (fdp o) " -f"; flag (sonmp o) " -s"; dq ].

Definition launch_text (o : options) : string :=
  cat [nl; header_line; nl; daemon_args o; nl].

(** The lines of file 2 about the listened interfaces: none for an empty
    list. *)
Definition pattern_block (entries : list string) : string :=
  match entries with
  | [] => EmptyString
  | _ => cat [nl; pattern_line (Py.join "," entries); nl]
  end.

Definition native_text_of (d : string) (entries : list string) : string :=
  cat [ nl; header_line; nl; nl; "configure system platform VyOS"; nl;
        "configure system description "; dq; "VyOS "; d; dq; nl;
        pattern_block entries; nl ].

(** The model and the world that a successful [generate] leaves. *)
Definition generated_model (m : lldp) (d : string) (l : list interface)
  : lldp :=
  mk_lldp (add_listen_on (set_description d (opts m)) l)
          (interface_list m) (location_list m).

Definition generated_world (m : lldp) (d : string) (l : list interface)
           (w : world) : world :=
  let o' := add_listen_on (set_description d (opts m)) l in
  write_file vyos_config_file
    (Jinja.render (context_of o') (Jinja.Template vyos_tmpl))
    (write_file config_file
       (Jinja.render (context_of o') (Jinja.Template lldp_tmpl)) w).

Definition restart_command : string := "sudo systemctl restart lldpd.service".
Definition stop_command : string := "sudo systemctl stop lldpd.service".

End Texts.

(** ** What the patterns of the validator accept *)

Module Accepted.
Import Py Lldp Verify Terms.

(** Two ASCII letters, possibly followed by one line feed. *)
Definition two_letter_code (s : string) : bool :=
  match list_ascii_of_string s with
  | [a; b] => is_alpha a && is_alpha b
  | [a; b; c] => is_alpha a && is_alpha b && Ascii.eqb c Re.newline
  | _ => false
  end.

(** A character an altitude may hold: a sign, a point or a digit. *)
Definition altitude_char (c : ascii) : bool :=
  one_of "-+." c || is_digit c.

Definition datum_names : list string := ["WGS84"; "NAD83"; "MLLW"].

(** One of the datum names, possibly followed by one line feed. *)
Definition datum_name (s : string) : bool :=
  existsb (fun d => String.eqb s d || String.eqb s (String.append d nl))
          datum_names.

(** Valid coordinates with the given altitude and datum. *)
Definition located (alt dat : option string) : coordinate :=
  mk_coordinate alt (Some "45.5N") (Some "10.25E") dat.

(** The records of a list, as entries. *)
Definition records (locs : list location) : list entry := map EntryLoc locs.

(** A number followed by one of [letters], possibly followed by one line
    feed: what the latitude and longitude patterns accept. *)
Definition coordinate_value (letters : string) (s : string) : Prop :=
  exists whole frac h,
    number_parts whole frac = true
    /\ one_of letters h = true
    /\ (s = coordinate_text whole frac h
        \/ s = String.append (coordinate_text whole frac h) nl).

(** [service lldp disable] and [service lldp snmp enable], without
    [service snmp]. *)
Definition config_disabled_snmp : Config.node :=
  branch [("service", branch [("lldp", branch
    [("disable", branch []);
     ("snmp", branch [("enable", branch [])])])])].

(** SNMP on for LLDP, off system-wide. *)
Definition snmp_unbacked_options : options :=
  mk_options false None true (Some false) false false false false
             "unknown" [].

End Accepted.

(** * Properties *)

(** ** The built-ins on small inputs *)

Module Samples.
Import Py Re Verify.

Example int_samples :
  Py.int "128" = Some 128%Z /\ Py.int " +1_0 " = Some 10%Z
  /\ Py.int "-5" = Some (-5)%Z /\ Py.int "abc" = None
  /\ Py.int "" = None /\ Py.int "1__0" = None /\ Py.int "+ 5" = None.
Proof. repeat split. Qed.

Example int_separator_samples :
  Py.int (String (ascii_of_nat 28) "5") = None
  /\ Py.int (String.append "5" (String (ascii_of_nat 31) "")) = None
  /\ Py.int (String (ascii_of_nat 160) "5") = Some 5%Z
  /\ Py.int (String.append nl "5 ") = Some 5%Z.
Proof. repeat split. Qed.

Example split_samples :
  Py.split "Version:    1.2.0 " = ["Version:"; "1.2.0"]
  /\ Py.split (String.append nl "a") = ["a"]
  /\ Py.split " " = [].
Proof. repeat split. Qed.

Example join_samples :
  Py.join "," ["eth0"; "!eth1"] = "eth0,!eth1" /\ Py.join "," [] = "".
Proof. repeat split. Qed.

Example re_match_samples :
  re_match re_country_code "US" = true
  /\ re_match re_country_code "USA" = false
  /\ re_match re_datum "NAD83" = true
  /\ re_match re_datum "NAD27" = false
  /\ re_match re_altitude "-12.5" = true
  /\ re_match re_latitude "45.5N" = true
  /\ re_match re_latitude (String.append "45.5N" nl) = true
  /\ re_match re_latitude (String.append "45.5N" (String.append nl nl))
     = false.
Proof. repeat split. Qed.

End Samples.

(** ** The derivative matcher decides the language *)

Module ReFacts.
Import Re.

Lemma nullable_lang r : nullable r = true <-> lang r [].
Proof.
  induction r; simpl; split; intros H; try discriminate.
  - inversion H.
  - constructor.
  - reflexivity.
  - inversion H.
  - apply andb_true_iff in H as [H1 H2].
    change (@nil ascii) with (@nil ascii ++ []). constructor; tauto.
  - inversion H; subst.
    match goal with E : _ ++ _ = [] |- _ => apply app_eq_nil in E as [-> ->] end.
    apply andb_true_iff; tauto.
  - apply orb_true_iff in H as [H|H]; [apply lang_alt_l|apply lang_alt_r]; tauto.
  - apply orb_true_iff. inversion H; subst; tauto.
  - constructor.
  - reflexivity.
Qed.

Lemma lang_star_uncons r c s :
  lang (Star r) (c :: s) ->
  exists s1 s2, s = s1 ++ s2 /\ lang r (c :: s1) /\ lang (Star r) s2.
Proof.
  intros H. remember (Star r) as r' eqn:Er. remember (c :: s) as w eqn:Ew.
  revert Er Ew. induction H; intros Er Ew; try discriminate.
  injection Er as ->. destruct s1 as [|c1 s1].
  - simpl in Ew. apply IHlang2; auto.
  - simpl in Ew. injection Ew as E1 E2. subst. eauto.
Qed.

Lemma deriv_lang c r : forall s, lang (deriv c r) s <-> lang r (c :: s).
Proof.
  induction r; intros s; simpl.
  - split; intros H; inversion H.
  - split; intros H; inversion H.
  - destruct (in_class c ranges) eqn:E; split; intros H.
    + inversion H; subst. now constructor.
    + inversion H; subst. constructor.
    + inversion H.
    + inversion H; subst. congruence.
  - assert (Hseq : lang (Seq (deriv c r1) r2) s ->
                   lang (Seq r1 r2) (c :: s)).
    { intros H. inversion H; subst.
      change (c :: s1 ++ s2) with ((c :: s1) ++ s2).
      constructor; auto. now apply IHr1. }
    assert (Hinv : lang (Seq r1 r2) (c :: s) ->
                   lang (Seq (deriv c r1) r2) s
                   \/ (lang r1 [] /\ lang r2 (c :: s))).
    { intros H. inversion H; subst. destruct s1 as [|c1 s1].
      - simpl in *. subst. right; auto.
      - match goal with E : _ ++ _ = _ |- _ => simpl in E; injection E as E1 E2 end.
        subst.
        left. constructor; auto. now apply IHr1. }
    destruct (nullable r1) eqn:E; split; intros H.
    + inversion H; subst; auto.
      change (c :: s) with ([] ++ c :: s). constructor.
      * now apply nullable_lang.
      * now apply IHr2.
    + destruct (Hinv H) as [H'|[_ H']].
      * now apply lang_alt_l.
      * apply lang_alt_r. now apply IHr2.
    + auto.
    + destruct (Hinv H) as [H'|[H' _]]; auto.
      apply nullable_lang in H'. congruence.
  - split; intros H; inversion H; subst.
    + apply lang_alt_l. now apply IHr1.
    + apply lang_alt_r. now apply IHr2.
    + apply lang_alt_l. now apply IHr1.
    + apply lang_alt_r. now apply IHr2.
  - split; intros H.
    + inversion H; subst.
      change (c :: s1 ++ s2) with ((c :: s1) ++ s2).
      constructor; auto. now apply IHr.
    + apply lang_star_uncons in H as (s1 & s2 & -> & H1 & H2).
      constructor; auto. now apply IHr.
Qed.

Lemma matches_lang r s : matches r s = true <-> lang r s.
Proof.
  revert r. induction s as [|c s IH]; intros r; simpl.
  - apply nullable_lang.
  - rewrite IH. apply deriv_lang.
Qed.

End ReFacts.

(** ** The accessor: scoping and pure loops *)

Module ConfigFacts.
Import Config.

Lemma lookup_app p q n :
  lookup (p ++ q) n =
  match lookup p n with Some c => lookup q c | None => None end.
Proof.
  revert n. induction p as [|w p IH]; intros n; simpl.
  - reflexivity.
  - destruct (find_child w (children n)); auto.
Qed.

Lemma lookup_below_absent p q n : lookup p n = None -> lookup (p ++ q) n = None.
Proof. intros H. rewrite lookup_app, H. reflexivity. Qed.

(** A loop whose body reads the configuration [tr], whatever the scope it
    starts from, collects the values of a function of the loop variable. *)
Lemma map_m_reads {A B} (body : A -> M B) (g : A -> B) (tr : node) :
  (forall x c, tree c = tr ->
               fst (body x c) = g x /\ tree (snd (body x c)) = tr) ->
  forall l c, tree c = tr ->
              fst (map_m body l c) = map g l /\ tree (snd (map_m body l c)) = tr.
Proof.
  intros Hbody l. induction l as [|x l IH]; intros c Hc; simpl.
  - auto.
  - unfold bind. destruct (body x c) as [y c1] eqn:E1.
    destruct (Hbody x c Hc) as [Hy Hc1]. rewrite E1 in Hy, Hc1. simpl in *.
    destruct (map_m body l c1) as [ys c2] eqn:E2.
    destruct (IH c1 Hc1) as [Hys Hc2]. rewrite E2 in Hys, Hc2. simpl in *.
    subst. auto.
Qed.

End ConfigFacts.

(** ** Extraction of the locations *)

Module LocationFacts.
Import Config Lldp Terms ConfigFacts.

Lemma get_location_intf_reads tr name c :
  tree c = tr ->
  fst (get_location_intf name c) = entry_of tr name
  /\ tree (snd (get_location_intf name c)) = tr.
Proof.
  intros Hc. destruct c as [tr' lv]. simpl in Hc. subst tr'.
  unfold entry_of, has_location, present, interface_path.
  unfold get_location_intf, bind, set_level, exists_, return_value,
    list_nodes, ret, service_lldp. cbn [app fst snd tree level].
  destruct (lookup ["service"; "lldp"; "interface"; name; "location"] tr)
    as [n|] eqn:E; cbn [app fst snd tree level].
  - auto.
  - pose proof (lookup_below_absent _ ["civic-based"] _ E) as E1.
    pose proof (lookup_below_absent _ ["elin"] _ E) as E2.
    pose proof (lookup_below_absent _ ["coordinate-based"] _ E) as E3.
    cbn [app] in E1, E2, E3.
    rewrite E1; cbn [app fst snd tree level].
    rewrite E2; cbn [app fst snd tree level].
    rewrite E3; cbn [app fst snd tree level]. auto.
Qed.

(** Without a [disable] node under the service, [get_location] returns
    one entry per declared interface, in order. *)
Lemma get_location_entries tr :
  present (service_lldp ++ ["disable"]) tr = false ->
  run get_location (new tr) =
  LocList (map (entry_of tr) (declared_interfaces tr)).
Proof.
  unfold present, declared_interfaces, run, new, get_location, service_lldp.
  unfold bind at 1 2. unfold set_level, list_nodes.
  cbn [app fst snd tree level]. intros Hd.
  set (names := match lookup ["service"; "lldp"; "interface"] tr with
                | Some n => map fst (children n)
                | None => []
                end).
  destruct (Z.of_nat (length names) <? 0)%Z eqn:Hlen.
  - apply Z.ltb_lt in Hlen. lia.
  - unfold bind, exists_. cbn [app fst snd tree level].
    destruct (lookup ["service"; "lldp"; "disable"] tr); [discriminate|].
    destruct (map_m get_location_intf names
                    {| tree := tr; level := ["service"; "lldp"] |})
      as [es c'] eqn:E.
    pose proof (map_m_reads get_location_intf (entry_of tr) tr
                  (get_location_intf_reads tr) names
                  {| tree := tr; level := ["service"; "lldp"] |} eq_refl)
      as [H _].
    rewrite E in H. simpl in *. now subst.
Qed.

Lemma get_location_disabled tr :
  present (service_lldp ++ ["disable"]) tr = true ->
  run get_location (new tr) = LocInt 0.
Proof.
  unfold present, run, new, get_location, service_lldp.
  unfold bind, set_level, list_nodes, exists_.
  cbn [app fst snd tree level]. intros Hd.
  match goal with
  | |- context [(Z.of_nat ?n <? 0)%Z] =>
      destruct (Z.of_nat n <? 0)%Z eqn:Hlen
  end.
  - reflexivity.
  - cbn [app fst snd tree level].
    destruct (lookup ["service"; "lldp"; "disable"] tr);
      [reflexivity|discriminate].
Qed.

End LocationFacts.

(** ** The claims about extraction, the null model and the entry point *)

Section Pipeline.
Import Py Lldp Verify Script Terms.

Lemma entries_stand_for_interfaces tr names :
  Forall2 entry_for names (map (entry_of tr) names).
Proof.
  induction names as [|name names IH]; simpl; constructor; auto.
  unfold entry_of. destruct (has_location tr name); reflexivity.
Qed.

(** When the service has no [disable] node, the location extractor returns
    a list with exactly one entry per declared interface, in declaration
    order: nothing is filtered out, and each entry is the integer 0 or a
    record named after its interface. *)
Theorem get_location_skips_no_interface (tr : Config.node) :
  present (service_lldp ++ ["disable"]) tr = false ->
  exists es,
    Config.run get_location (Config.new tr) = LocList es
    /\ length es = length (declared_interfaces tr)
    /\ Forall2 entry_for (declared_interfaces tr) es.
Proof.
  intros Hd. exists (map (entry_of tr) (declared_interfaces tr)).
  split; [|split].
  - now apply LocationFacts.get_location_entries.
  - apply length_map.
  - apply entries_stand_for_interfaces.
Qed.

Lemma get_location_skips_no_interface_witness :
  exists es,
    Config.run get_location (Config.new config_two_interfaces) = LocList es
    /\ length es = length (declared_interfaces config_two_interfaces)
    /\ Forall2 entry_for (declared_interfaces config_two_interfaces) es.
Proof.
  apply (get_location_skips_no_interface config_two_interfaces).
  reflexivity.
Defined.

(** C1 fails on the code.  The guard of [get_location_intf] is inverted
    ([if config.exists('location'): return 0]): [eth0] declares a location
    and has no record in the list (its entry is the integer 0, and its elin
    is never read), and [eth1] declares none and yet has a record. *)
Lemma get_location_absent_kept_present_dropped :
  let es := [EntryInt 0; EntryLoc (blank_location "eth1")] in
  Config.run get_location (Config.new config_two_interfaces) = LocList es
  /\ has_location config_two_interfaces "eth1" = false
  /\ existsb (record_named "eth1") es = true
  /\ has_location config_two_interfaces "eth0" = true
  /\ existsb (record_named "eth0") es = false.
Proof. vm_compute. repeat split. Qed.

(** C10.  There is a configuration in which the service exists and has a
    [disable] child: [get_location] returns the integer 0 instead of a
    list, the model is not null, and [verify] on it raises a type error
    and not a configuration error, which the invocation does not catch. *)
Theorem disabled_service_location_is_zero :
  exists tr,
    present service_lldp tr = true
    /\ present (service_lldp ++ ["disable"]) tr = true
    /\ Config.run get_location (Config.new tr) = LocInt 0
    /\ (exists m, get_config tr = Some m
                  /\ location_list m = LocInt 0
                  /\ verify (Some m) = Raise TypeError)
    /\ forall w, main tr w = (Uncaught TypeError, w).
Proof.
  exists config_disabled. repeat split; try reflexivity.
  eexists. repeat split; reflexivity.
Qed.

Lemma get_config_absent tr :
  present service_lldp tr = false -> get_config tr = None.
Proof.
  unfold present, get_config, Config.run, Config.new, Config.bind,
    Config.exists_, service_lldp.
  cbn [app fst snd Config.tree Config.level]. intros H.
  destruct (Config.lookup ["service"; "lldp"] tr); [discriminate|].
  reflexivity.
Qed.

(** C9.  When the service subtree is absent the model is null; on the null
    model [verify] and [generate] return without any effect, and [apply]
    issues the stop command and leaves file 1 deleted and file 2 as it was.
    ([os.unlink] raises when file 1 did not exist.) *)
Theorem null_model_only_stops_service (tr : Config.node) (w : world) :
  present service_lldp tr = false ->
  get_config tr = None
  /\ verify None = Ok tt
  /\ generate None w = (Ok None, w)
  /\ commands (snd (apply None w)) =
     commands w ++ ["sudo systemctl stop lldpd.service"]
  /\ files (snd (apply None w)) = delete config_file (files w)
  /\ files (snd (apply None w)) !! config_file = None
  /\ files (snd (apply None w)) !! vyos_config_file =
     files w !! vyos_config_file
  /\ stdout (snd (apply None w)) = stdout w
  /\ fst (apply None w) =
     match files w !! config_file with
     | Some _ => Ok tt
     | None => Raise FileNotFoundError
     end.
Proof.
  intros Habsent.
  assert (Hfiles : files (snd (apply None w)) = delete config_file (files w)).
  { unfold apply, system. cbn [files commands stdout].
    destruct (files w !! config_file) eqn:E; cbn [snd files].
    - reflexivity.
    - symmetry. now apply delete_id. }
  repeat split.
  - now apply get_config_absent.
  - unfold apply, system. cbn [files commands stdout].
    destruct (files w !! config_file); reflexivity.
  - exact Hfiles.
  - rewrite Hfiles. apply lookup_delete_eq.
  - rewrite Hfiles. now apply lookup_delete_ne.
  - unfold apply, system. cbn [files commands stdout].
    destruct (files w !! config_file); reflexivity.
  - unfold apply, system. cbn [files commands stdout].
    destruct (files w !! config_file); reflexivity.
Qed.

Lemma null_model_only_stops_service_witness :
  get_config (branch []) = None
  /\ commands (snd (apply None (mk_world {[config_file := "x"]} [] []))) =
     ["sudo systemctl stop lldpd.service"]
  /\ fst (apply None (mk_world {[config_file := "x"]} [] [])) = Ok tt.
Proof.
  pose proof (null_model_only_stops_service (branch [])
                (mk_world {[config_file := "x"]} [] []) eq_refl)
    as (H1 & _ & _ & H4 & _ & _ & _ & _ & H9).
  split; [exact H1|]. split; [exact H4|].
  rewrite H9. reflexivity.
Defined.

(** C4.  Whenever [verify] raises the configuration error on the model of
    a configuration, the invocation prints the message and exits with
    status 1; [generate] and [apply] are not run: the files and the issued
    commands are as before. *)
Theorem config_error_prints_and_exits_1
        (tr : Config.node) (w : world) (msg : string) :
  verify (get_config tr) = Raise (ConfigError msg) ->
  main tr w = (Exit 1, mk_world (files w) (commands w) (stdout w ++ [msg])).
Proof.
  intros H. unfold main. rewrite H. reflexivity.
Qed.

Lemma config_error_prints_and_exits_1_witness :
  verify (get_config config_snmp_only) = Raise (ConfigError msg_snmp)
  /\ main config_snmp_only empty_world =
     (Exit 1, mk_world ∅ [] [msg_snmp]).
Proof.
  split; [reflexivity|].
  apply (config_error_prints_and_exits_1 config_snmp_only empty_world
           msg_snmp).
  reflexivity.
Defined.

End Pipeline.

(** ** The validator: order of the checks *)

Module VerifyFacts.
Import Py Re Lldp Verify Terms.

Lemma for_each_app_ok {A} (body : A -> result unit) pre l :
  for_each body pre = Ok tt -> for_each body (pre ++ l) = for_each body l.
Proof.
  induction pre as [|x pre IH]; simpl; auto.
  destruct (body x) as [[]|e]; simpl; auto. discriminate.
Qed.

Lemma for_each_raises {A} (body : A -> result unit) l e :
  for_each body l = Raise e -> exists x, In x l /\ body x = Raise e.
Proof.
  induction l as [|x l IH]; simpl; [discriminate|].
  destruct (body x) as [[]|e'] eqn:E; simpl; intros H.
  - destruct (IH H) as (y & Hy & Hb). eauto.
  - injection H as ->. eauto.
Qed.

Lemma len_not_negative {A} (l : list A) : (Z.of_nat (length l) <? 0)%Z = false.
Proof. apply Z.ltb_ge. lia. Qed.

Lemma country_code_not_empty cc :
  re_match re_country_code cc = true -> truthy (Some cc) = true.
Proof. destruct cc; [discriminate|reflexivity]. Qed.

(** Once the civic record passes the checks on the type count and the
    country code, [verify_civic] is the loop over the ca-types. *)
Lemma verify_civic_reaches_ca_types name cc cas :
  re_match re_country_code cc = true ->
  verify_location (EntryLoc (civic_location name cc cas)) =
  for_each (verify_ca_type name) cas.
Proof.
  intros Hcc. unfold verify_location, civic_location, verify_civic.
  cbn [civic_based coordinate_based elin loc_name country_code ca_types].
  rewrite (country_code_not_empty cc Hcc). cbn [truthy orb negb].
  unfold require_match. rewrite Hcc. cbn [negb Py.bind].
  rewrite len_not_negative. reflexivity.
Qed.

Ltac split_checks H :=
  repeat match type of H with
         | context [if ?b then _ else _] => destruct b eqn:?
         | context [match ?x with _ => _ end] => destruct x eqn:?
         end.

Ltac read_message H :=
  first [ discriminate H
        | injection H as <-; reflexivity ].

Lemma require_match_message v r invalid msg :
  require_match v r invalid = Raise (ConfigError msg) -> msg = invalid.
Proof.
  unfold require_match. intros H. split_checks H; try discriminate.
  now injection H.
Qed.

Lemma ca_type_message_head name ca msg :
  verify_ca_type name ca = Raise (ConfigError msg) ->
  starts_with "S" msg = false.
Proof.
  unfold verify_ca_type. intros H. split_checks H; read_message H.
Qed.

Lemma civic_message_head name loc cb msg :
  verify_civic name loc cb = Raise (ConfigError msg) ->
  starts_with "S" msg = false.
Proof.
  unfold verify_civic, Py.bind. intros H.
  destruct (_ || _); [read_message H|].
  destruct (negb (truthy (country_code cb))); [read_message H|].
  destruct (require_match _ _ _) as [[]|e] eqn:E.
  - destruct (_ <? _)%Z; [read_message H|].
    apply for_each_raises in H as (ca & _ & H).
    now apply ca_type_message_head in H.
  - injection H as ->. apply require_match_message in E. now subst.
Qed.

Lemma coordinate_message_head name co msg :
  verify_coordinate name co = Raise (ConfigError msg) ->
  starts_with "S" msg = false.
Proof.
  unfold verify_coordinate, Py.bind. intros H.
  destruct (negb (truthy (longitude co))); [read_message H|].
  destruct (negb (truthy (latitude co))); [read_message H|].
  destruct (require_match (latitude co) _ _) as [[]|e] eqn:E1;
    [|injection H as ->; apply require_match_message in E1; now subst].
  destruct (require_match (longitude co) _ _) as [[]|e] eqn:E2;
    [|injection H as ->; apply require_match_message in E2; now subst].
  destruct (truthy (altitude co)).
  - destruct (require_match (altitude co) _ _) as [[]|e] eqn:E3;
      [|injection H as ->; apply require_match_message in E3; now subst].
    destruct (truthy (datum co)); [|discriminate].
    apply require_match_message in H. now subst.
  - destruct (truthy (datum co)); [|discriminate].
    apply require_match_message in H. now subst.
Qed.

Lemma location_message_head e msg :
  verify_location e = Raise (ConfigError msg) ->
  starts_with "S" msg = false.
Proof.
  unfold verify_location. intros H.
  destruct e as [z|loc]; [discriminate|].
  destruct (civic_based loc) as [cb|].
  - now apply civic_message_head in H.
  - destruct (coordinate_based loc) as [co|].
    + now apply coordinate_message_head in H.
    + destruct (truthy (elin loc)); [|discriminate].
      apply require_match_message in H. now subst.
Qed.

Lemma locations_message_head l msg :
  verify_locations l = Raise (ConfigError msg) ->
  starts_with "S" msg = false.
Proof.
  destruct l as [z|es]; simpl; [discriminate|]. intros H.
  apply for_each_raises in H as (e & _ & H).
  now apply location_message_head in H.
Qed.

End VerifyFacts.

(** ** The claims about the SNMP rule and the ca-type count *)

Section Rules.
Import Py Re Lldp Verify Script Terms VerifyFacts.

Lemma get_options_snmp tr :
  let o := Config.run get_options (Config.new tr) in
  snmp o = present (service_lldp ++ ["snmp"; "enable"]) tr
  /\ sys_snmp o =
     if snmp o then Some (present ["service"; "snmp"] tr) else None.
Proof.
  unfold present, Config.run, Config.new, get_options, service_lldp.
  unfold Config.bind, Config.set_level, Config.exists_,
    Config.return_value, Config.ret.
  cbn [app fst snd Config.tree Config.level].
  destruct (Config.lookup ["service"; "lldp"; "snmp"; "enable"] tr);
    cbn [app fst snd Config.tree Config.level snmp sys_snmp]; auto.
Qed.

Lemma verify_options_snmp o :
  verify_options o = Raise (ConfigError msg_snmp) <->
  snmp o = true /\ sys_snmp o = Some false.
Proof.
  unfold verify_options.
  destruct (snmp o); [destruct (sys_snmp o) as [[]|]|]; simpl;
    split; try discriminate; auto; intros [H1 H2]; discriminate.
Qed.

(** C5, as amended.  [verify] raises 'SNMP must be configured to enable
    LLDP SNMP' only if the options have snmp enabled and system-wide snmp
    disabled; on a model whose locations pass (a failing location is
    reported first) it raises it exactly then, and with snmp and
    system-wide snmp both enabled validation passes.  The two options are
    read by [get_options] from [service lldp snmp enable] and, at the root,
    [service snmp]. *)
Theorem snmp_needs_system_snmp (m : lldp) :
  (verify (Some m) = Raise (ConfigError msg_snmp) ->
   snmp (opts m) = true /\ sys_snmp (opts m) = Some false)
  /\ (verify_locations (location_list m) = Ok tt ->
      (verify (Some m) = Raise (ConfigError msg_snmp) <->
       snmp (opts m) = true /\ sys_snmp (opts m) = Some false)
      /\ (snmp (opts m) = true -> sys_snmp (opts m) = Some true ->
          verify (Some m) = Ok tt))
  /\ (forall tr,
        let o := Config.run get_options (Config.new tr) in
        snmp o = present (service_lldp ++ ["snmp"; "enable"]) tr
        /\ sys_snmp o =
           if snmp o then Some (present ["service"; "snmp"] tr) else None).
Proof.
  split; [|split].
  - unfold verify, Py.bind.
    destruct (verify_locations (location_list m)) as [[]|e] eqn:E.
    + apply verify_options_snmp.
    + intros H. injection H as ->.
      apply locations_message_head in E. discriminate.
  - intros Hloc. unfold verify, Py.bind. rewrite Hloc. split.
    + apply verify_options_snmp.
    + intros H1 H2. unfold verify_options. rewrite H1, H2. reflexivity.
  - apply get_options_snmp.
Qed.

Lemma snmp_needs_system_snmp_witness :
  verify (get_config config_snmp_only) = Raise (ConfigError msg_snmp)
  /\ verify (Some (model_of
                     (mk_options false None true (Some true)
                                 false false false false "unknown" [])
                     [EntryLoc (blank_location "eth0")])) = Ok tt.
Proof.
  split.
  - apply (proj2 (snmp_needs_system_snmp
                    (mk_lldp (mk_options false None true (Some false)
                                false false false false "unknown" [])
                             (IntfList []) (LocList [])))).
    + reflexivity.
    + split; reflexivity.
  - apply (proj2 (snmp_needs_system_snmp
                    (model_of
                       (mk_options false None true (Some true)
                                   false false false false "unknown" [])
                       [EntryLoc (blank_location "eth0")]))).
    + reflexivity.
    + reflexivity.
    + reflexivity.
Defined.

(** C2 fails on the code: a civic record whose ca-type list is empty
    passes validation (the length is compared with [< 0]). *)
Theorem empty_ca_type_list_accepted (name : string) :
  verify (Some (model_of plain_options
                         [EntryLoc (civic_location name "US" [])])) = Ok tt.
Proof. reflexivity. Qed.

End Rules.

(** ** The claim about the ca-type identifiers *)

Section CivicRecord.
Import Py Re Lldp Verify Script Terms VerifyFacts.

(** A civic record named [name] with the country code [cc], placed in a model
    after the records [before], which pass, and before the records [after]. *)
Variables (o : options) (before after : list entry) (name cc : string).
Hypothesis before_pass : for_each verify_location before = Ok tt.
Hypothesis cc_valid : re_match re_country_code cc = true.

Lemma verify_at_civic cas :
  verify (Some (civic_model_at o before after name cc cas)) =
  (for_each (verify_ca_type name) cas ;;
   for_each verify_location after ;;
   verify_options o).
Proof.
  unfold civic_model_at, verify, model_of, verify_locations.
  cbn [location_list opts].
  rewrite (for_each_app_ok _ _ _ before_pass). cbn [for_each].
  rewrite (verify_civic_reaches_ca_types name cc cas cc_valid).
  destruct (for_each (verify_ca_type name) cas) as [[]|e]; reflexivity.
Qed.

(** C6, as amended.  In a civic record that reaches the ca-type loop (the
    records before it pass, its country code is valid, the ca-types before
    the entry pass): an identifier that does not parse as an integer makes
    [verify] raise the parse failure, not the configuration error; one
    that parses to a value outside [0, 128] raises the configuration error
    'ca-type must between 0-128'; one that parses to a value in [0, 128]
    and has a value lets validation go on.  '0' and '128' parse to 0 and
    128. *)
Theorem ca_type_identifier_checked (pre post : list ca_type) (ca : ca_type) :
  for_each (verify_ca_type name) pre = Ok tt ->
  (Py.int (ca_name ca) = None ->
   verify (Some (civic_model_at o before after name cc
                                (pre ++ ca :: post))) = Raise ValueError)
  /\ (forall n, Py.int (ca_name ca) = Some n -> (n < 0 \/ 128 < n)%Z ->
                verify (Some (civic_model_at o before after name cc
                                (pre ++ ca :: post))) =
                Raise (ConfigError (msg_ca_type_range name)))
  /\ (forall n, Py.int (ca_name ca) = Some n -> (0 <= n <= 128)%Z ->
                truthy (ca_val ca) = true ->
                verify (Some (civic_model_at o before after name cc
                                (pre ++ ca :: post))) =
                (for_each (verify_ca_type name) post ;;
                 for_each verify_location after ;;
                 verify_options o))
  /\ Py.int "0" = Some 0%Z /\ Py.int "128" = Some 128%Z.
Proof.
  intros Hpre. rewrite verify_at_civic.
  rewrite (for_each_app_ok _ _ _ Hpre). cbn [for_each].
  repeat split.
  - intros H. unfold verify_ca_type at 1. rewrite H. reflexivity.
  - intros n H Hn. unfold verify_ca_type at 1. rewrite H.
    replace (Py.in_range n 0 129) with false; [reflexivity|].
    symmetry. unfold Py.in_range. apply andb_false_iff.
    destruct Hn; [left; apply Z.leb_gt|right; apply Z.ltb_ge]; lia.
  - intros n H Hn Hv. unfold verify_ca_type at 1. rewrite H, Hv.
    replace (Py.in_range n 0 129) with true; [reflexivity|].
    symmetry. unfold Py.in_range. apply andb_true_iff.
    split; [apply Z.leb_le|apply Z.ltb_lt]; lia.
Qed.

End CivicRecord.

Section CivicExamples.
Import Py Re Lldp Verify Script Terms.

Lemma ca_type_identifier_checked_witness :
  verify (Some (model_of plain_options
                  [EntryLoc (civic_location "eth0" "US"
                               [mk_ca_type "0" (Some "a");
                                mk_ca_type "x1" (Some "b")])]))
  = Raise ValueError
  /\ verify (Some (model_of plain_options
                     [EntryLoc (civic_location "eth0" "US"
                                  [mk_ca_type "0" (Some "a");
                                   mk_ca_type "129" (Some "b")])]))
     = Raise (ConfigError (msg_ca_type_range "eth0"))
  /\ verify (Some (model_of plain_options
                     [EntryLoc (civic_location "eth0" "US"
                                  [mk_ca_type "0" (Some "a");
                                   mk_ca_type "128" (Some "b")])]))
     = Ok tt.
Proof.
  split; [|split].
  - apply (ca_type_identifier_checked plain_options [] [] "eth0" "US"
             eq_refl eq_refl
             [mk_ca_type "0" (Some "a")] [] (mk_ca_type "x1" (Some "b")));
      reflexivity.
  - apply (proj1 (proj2
             (ca_type_identifier_checked plain_options [] [] "eth0" "US"
                eq_refl eq_refl
                [mk_ca_type "0" (Some "a")] []
                (mk_ca_type "129" (Some "b")) eq_refl)) 129%Z);
      [reflexivity|lia].
  - apply (proj1 (proj2 (proj2
             (ca_type_identifier_checked plain_options [] [] "eth0" "US"
                eq_refl eq_refl
                [mk_ca_type "0" (Some "a")] []
                (mk_ca_type "128" (Some "b")) eq_refl))) 128%Z);
      [reflexivity|lia|reflexivity].
Defined.

End CivicExamples.

(** ** The claim about the generated files *)

Section Rendering.
Import Py Lldp Verify Script Terms.

(** C3, as amended.  For the model with the enabled interface eth0 and the
    disabled interface eth1, SNMP off and the four legacy flags off, and a
    version file whose second word is [d], [generate] writes file 1 as an
    empty line, the header line '### Autogenerated by lldp.py ###' and the
    line DAEMON_ARGS="-M4" (the arguments are the last line, not the whole
    content), and file 2 with the interface-pattern line listing
    eth0,!eth1. *)
Theorem generate_two_interfaces_files
        (vlan : bool) (locs : locations) (w : world) (tmp d : string) :
  files w !! version_file = Some tmp ->
  Py.split tmp !! 1%nat = Some d ->
  exists m' w',
    generate (Some (two_interface_model vlan locs)) w = (Ok (Some m'), w')
    /\ listen_on (opts m') = ["eth0"; "!eth1"]
    /\ files w' !! config_file = Some launch_file_text
    /\ files w' !! vyos_config_file = Some (native_file_text d)
    /\ commands w' = commands w.
Proof.
  intros Hv Hd. unfold generate. rewrite Hv, Hd.
  cbn [two_interface_model interface_list]. do 2 eexists.
  split; [reflexivity|]. cbn [opts files commands write_file].
  split; [reflexivity|]. split; [|split; [|reflexivity]].
  - rewrite lookup_insert_ne by discriminate.
    rewrite lookup_insert_eq. reflexivity.
  - rewrite lookup_insert_eq. reflexivity.
Qed.

Lemma generate_two_interfaces_files_witness :
  exists m' w',
    generate (Some (two_interface_model false (LocList []))) version_world
    = (Ok (Some m'), w')
    /\ listen_on (opts m') = ["eth0"; "!eth1"]
    /\ files w' !! config_file = Some launch_file_text
    /\ files w' !! vyos_config_file = Some (native_file_text "1.2.0")
    /\ commands w' = commands version_world.
Proof.
  apply (generate_two_interfaces_files false (LocList []) version_world
           "Version: 1.2.0" "1.2.0"); reflexivity.
Defined.

(** C3, as stated, fails: the content of file 1 is not the single line
    DAEMON_ARGS="-M4", with or without a final line feed. *)
Lemma generate_file_1_is_not_one_line :
  let w' := snd (generate (Some (two_interface_model false (LocList [])))
                          version_world) in
  files w' !! config_file = Some launch_file_text
  /\ launch_file_text <> daemon_args_line
  /\ launch_file_text <> String.append daemon_args_line nl.
Proof.
  cbn zeta. split; [|split].
  - vm_compute. reflexivity.
  - vm_compute. discriminate.
  - vm_compute. discriminate.
Qed.

End Rendering.

(** ** The languages of the patterns *)

Module ReShapes.
Import Re ReFacts.

Lemma lang_class_inv ranges s :
  lang (Class ranges) s -> exists c, s = [c] /\ in_class c ranges = true.
Proof. intros H. inversion H; subst. eauto. Qed.

Lemma lang_eps_inv s : lang Eps s -> s = [].
Proof. intros H. now inversion H. Qed.

Lemma lang_seq_inv r1 r2 s :
  lang (Seq r1 r2) s -> exists s1 s2, s = s1 ++ s2 /\ lang r1 s1 /\ lang r2 s2.
Proof. intros H. inversion H; subst. eauto. Qed.

Lemma star_class ranges s : all_in ranges s -> lang (Star (Class ranges)) s.
Proof.
  induction 1 as [|c s Hc _ IH].
  - constructor.
  - change (c :: s) with ([c] ++ s). constructor; auto. now constructor.
Qed.

Lemma star_class_inv ranges s : lang (Star (Class ranges)) s -> all_in ranges s.
Proof.
  intros H. remember (Star (Class ranges)) as r eqn:Er.
  induction H as [| | | | | |r0 s1 s2 H1 _ H2 IH]; try discriminate.
  - constructor.
  - injection Er as ->. apply lang_class_inv in H1 as (c & -> & Hc).
    constructor; [exact Hc|]. now apply IH.
Qed.

Lemma plus_class ranges s :
  lang (Plus (Class ranges)) s <-> s <> [] /\ all_in ranges s.
Proof.
  unfold Plus. split.
  - intros H. apply lang_seq_inv in H as (s1 & s2 & -> & H1 & H2).
    apply lang_class_inv in H1 as (c & -> & Hc).
    apply star_class_inv in H2. split; [discriminate|].
    constructor; auto.
  - intros [Hne H]. destruct H as [|c s Hc H]; [congruence|].
    change (c :: s) with ([c] ++ s). constructor.
    + now constructor.
    + now apply star_class.
Qed.

Lemma upto_class ranges k s :
  lang (UpTo k (Class ranges)) s <-> (length s <= k)%nat /\ all_in ranges s.
Proof.
  revert s. induction k as [|k IH]; intros s; simpl.
  - split.
    + intros H. apply lang_eps_inv in H as ->. split; [simpl; lia|constructor].
    + intros [Hl _]. destruct s; [constructor|simpl in Hl; lia].
  - unfold Opt. split.
    + intros H. inversion H; subst.
      * match goal with
        | H' : lang (Seq _ _) _ |- _ =>
            apply lang_seq_inv in H' as (s1 & s2 & -> & H1 & H2)
        end.
        apply lang_class_inv in H1 as (c & -> & Hc).
        apply IH in H2 as [Hl Ha]. split; [simpl; lia|constructor; auto].
      * match goal with
        | H' : lang Eps _ |- _ => apply lang_eps_inv in H' as ->
        end.
        split; [simpl; lia|constructor].
    + intros [Hl Ha]. destruct Ha as [|c s Hc Ha].
      * apply lang_alt_r. constructor.
      * apply lang_alt_l. change (c :: s) with ([c] ++ s). constructor.
        -- now constructor.
        -- apply IH. simpl in Hl. split; [lia|auto].
Qed.

Lemma exactly_class ranges m rest s :
  lang (Exactly m (Class ranges) rest) s <->
  exists s1 s2, s = s1 ++ s2 /\ length s1 = m /\ all_in ranges s1
                /\ lang rest s2.
Proof.
  revert s. induction m as [|m IH]; intros s; simpl.
  - split.
    + intros H. exists [], s. repeat split; auto. constructor.
    + intros (s1 & s2 & -> & Hl & _ & H).
      destruct s1; [exact H|discriminate].
  - split.
    + intros H. apply lang_seq_inv in H as (a & b & -> & Ha & Hb).
      apply lang_class_inv in Ha as (c & -> & Hc).
      apply IH in Hb as (s1 & s2 & -> & Hl & Hall & Hrest).
      exists (c :: s1), s2. repeat split; simpl; auto.
      constructor; auto.
    + intros (s1 & s2 & -> & Hl & Hall & Hrest).
      destruct Hall as [|c s1 Hc Hall]; [discriminate|].
      change ((c :: s1) ++ s2) with ([c] ++ (s1 ++ s2)). constructor.
      * now constructor.
      * apply IH. exists s1, s2. repeat split; auto.
Qed.

(** [r{m,n}] over a character class: between [m] and [n] characters of
    the class. *)
Lemma repeat_class ranges m n s :
  (m <= n)%nat ->
  lang (Repeat m n (Class ranges)) s <->
  (m <= length s <= n)%nat /\ all_in ranges s.
Proof.
  intros Hmn. unfold Repeat. rewrite exactly_class. split.
  - intros (s1 & s2 & -> & Hl & H1 & H2).
    apply upto_class in H2 as [Hl2 H2]. rewrite length_app. split; [lia|].
    apply Forall_app. auto.
  - intros [Hl Ha].
    exists (firstn m s), (skipn m s). rewrite firstn_skipn.
    assert (Hs : s = firstn m s ++ skipn m s) by now rewrite firstn_skipn.
    rewrite Hs in Ha. apply Forall_app in Ha as [Ha1 Ha2].
    repeat split; auto.
    + apply firstn_length_le. lia.
    + apply upto_class. split; auto. rewrite length_skipn. lia.
Qed.

(** [re.match(r'^body$', s)]: [s] is in the language of [body], possibly
    followed by one line feed. *)
Lemma match_to_dollar_lang body s :
  match_to_dollar body s = true <->
  lang body s \/ exists s', s = s' ++ [newline] /\ lang body s'.
Proof.
  unfold match_to_dollar. rewrite orb_true_iff, matches_lang.
  apply or_iff_compat_l.
  destruct (rev s) as [|c rs] eqn:E.
  - split; [discriminate|]. intros (s' & -> & _).
    rewrite rev_app_distr in E. discriminate.
  - assert (Hs : s = rev rs ++ [c]).
    { rewrite <- (rev_involutive s), E. reflexivity. }
    rewrite andb_true_iff, matches_lang. split.
    + intros [Hc H]. apply Ascii.eqb_eq in Hc as ->. eauto.
    + intros (s' & Hs' & H). rewrite Hs in Hs'.
      apply app_inj_tail in Hs' as [-> ->].
      split; [apply Ascii.eqb_refl|exact H].
Qed.

End ReShapes.

(** ** Strings as character lists, and validation of one record *)

Module TextFacts.
Import Py Re Lldp Verify Terms ReShapes.

Lemma chars_app (a b : string) :
  list_ascii_of_string (String.append a b) =
  list_ascii_of_string a ++ list_ascii_of_string b.
Proof.
  induction a as [|c a IH].
  - reflexivity.
  - change (String.append (String c a) b) with (String c (String.append a b)).
    cbn [list_ascii_of_string app]. now rewrite IH.
Qed.

Lemma chars_length (s : string) :
  length (list_ascii_of_string s) = String.length s.
Proof. induction s as [|c s IH]; simpl; auto. Qed.

Lemma chars_inj (a b : string) :
  list_ascii_of_string a = list_ascii_of_string b -> a = b.
Proof.
  intros H. rewrite <- (string_of_list_ascii_of_string a),
              <- (string_of_list_ascii_of_string b), H. reflexivity.
Qed.

Lemma truthy_nonempty (s : string) :
  s <> EmptyString -> truthy (Some s) = true.
Proof.
  intros H. unfold truthy. apply negb_true_iff. now apply String.eqb_neq.
Qed.

Lemma all_digits_class (s : string) :
  all_digits s = true <-> all_in [("0"%char, "9"%char)] (list_ascii_of_string s).
Proof.
  unfold all_digits, all_in. rewrite forallb_forall, List.Forall_forall.
  split; intros H c Hc; specialize (H c Hc);
    unfold in_class, in_range, is_digit in *; cbn [existsb fst snd] in *;
    change (nat_of_ascii "0") with 48%nat in *;
    change (nat_of_ascii "9") with 57%nat in *.
  - now rewrite orb_false_r.
  - now rewrite orb_false_r in H.
Qed.

Lemma verify_one_location (loc : location) :
  verify_one loc = verify_location (EntryLoc loc).
Proof.
  unfold verify_one, verify, model_of, verify_locations.
  cbn [location_list opts for_each Py.bind].
  destruct (verify_location (EntryLoc loc)) as [[]|e]; reflexivity.
Qed.

End TextFacts.

(** ** The claim about the ELIN rule *)

Section Elin.
Import Py Re Lldp Verify Terms ReShapes TextFacts.

Lemma verify_one_elin name e :
  e <> EmptyString ->
  verify_one (elin_location name e) =
  if re_match re_elin e then Ok tt
  else Raise (ConfigError (msg_elin_invalid name)).
Proof.
  intros He. rewrite verify_one_location.
  unfold verify_location, elin_location, require_match.
  cbn [civic_based coordinate_based elin loc_name].
  rewrite (truthy_nonempty e He).
  destruct (re_match re_elin e); reflexivity.
Qed.

(** What [^[0-9]{10,25}$] accepts. *)
Lemma re_elin_accepts (e : string) :
  re_match re_elin e = true <->
  exists d, all_digits d = true
            /\ (10 <= String.length d <= 25)%nat
            /\ (e = d \/ e = String.append d nl).
Proof.
  unfold re_match, re_elin, digit. rewrite match_to_dollar_lang.
  rewrite (repeat_class _ 10 25) by lia. split.
  - intros [[Hl Ha]|(s' & Hs & H)].
    + exists e. rewrite all_digits_class, <- chars_length. auto.
    + apply (repeat_class _ 10 25) in H as [Hl Ha]; [|lia].
      exists (string_of_list_ascii s').
      rewrite all_digits_class, <- chars_length.
      rewrite list_ascii_of_string_of_list_ascii.
      repeat split; auto; try lia. right. apply chars_inj.
      rewrite chars_app, list_ascii_of_string_of_list_ascii. exact Hs.
  - intros (d & Hd & Hl & [->| ->]).
    + left. rewrite chars_length. split; [lia|]. now apply all_digits_class.
    + right. exists (list_ascii_of_string d). rewrite chars_app.
      split; [reflexivity|].
      apply (repeat_class _ 10 25); [lia|]. rewrite chars_length.
      split; [lia|]. now apply all_digits_class.
Qed.

(** C8 fails on the code in one direction.  An elin made of digits only is
    accepted exactly when it has 10 to 25 of them (9 rejected, 10 and 25
    accepted, 26 rejected), and every rejection is the configuration error;
    but the accepted values are the strings of 10 to 25 digits and also
    such a string followed by one line feed: '0123456789' and a line
    feed is accepted. *)
Theorem elin_digit_count_checked (name e : string) :
  e <> EmptyString ->
  (all_digits e = true ->
   (verify_one (elin_location name e) = Ok tt <->
    (10 <= String.length e <= 25)%nat))
  /\ (verify_one (elin_location name e) = Ok tt <->
      exists d, all_digits d = true
                /\ (10 <= String.length d <= 25)%nat
                /\ (e = d \/ e = String.append d nl))
  /\ (verify_one (elin_location name e) <> Ok tt ->
      verify_one (elin_location name e) =
      Raise (ConfigError (msg_elin_invalid name)))
  /\ verify_one (elin_location name (String.append "0123456789" nl)) = Ok tt.
Proof.
  intros He. rewrite (verify_one_elin name e He).
  assert (Hacc : (if re_match re_elin e then Ok tt
                  else Raise (ConfigError (msg_elin_invalid name))) = Ok tt
                 <-> re_match re_elin e = true).
  { destruct (re_match re_elin e); split; auto; discriminate. }
  split; [|split; [|split]].
  - intros Hd. rewrite Hacc, re_elin_accepts. split.
    + intros (d & Hdd & Hl & [->| ->]); [exact Hl|].
      exfalso. unfold all_digits in Hd. rewrite chars_app in Hd.
      rewrite forallb_app in Hd. apply andb_true_iff in Hd as [_ Hd].
      discriminate.
    + intros Hl. exists e. auto.
  - rewrite Hacc. apply re_elin_accepts.
  - destruct (re_match re_elin e); [intros H; now contradiction H|auto].
  - reflexivity.
Qed.

Lemma elin_digit_count_checked_witness :
  verify_one (elin_location "eth0" "012345678") =
  Raise (ConfigError (msg_elin_invalid "eth0"))
  /\ verify_one (elin_location "eth0" "0123456789") = Ok tt
  /\ verify_one (elin_location "eth0" "0123456789012345678901234") = Ok tt
  /\ verify_one (elin_location "eth0" "01234567890123456789012345") =
     Raise (ConfigError (msg_elin_invalid "eth0")).
Proof.
  assert (Hne : forall c s, String c s <> EmptyString) by discriminate.
  split; [|split; [|split]].
  - apply (elin_digit_count_checked "eth0" "012345678" (Hne _ _)).
    intros H.
    apply (proj1 (elin_digit_count_checked "eth0" "012345678" (Hne _ _))
             eq_refl) in H. simpl in H. lia.
  - apply (proj1 (elin_digit_count_checked "eth0" "0123456789" (Hne _ _))
             eq_refl). simpl. lia.
  - apply (proj1 (elin_digit_count_checked "eth0"
                    "0123456789012345678901234" (Hne _ _)) eq_refl).
    simpl. lia.
  - apply (elin_digit_count_checked "eth0" "01234567890123456789012345"
             (Hne _ _)).
    intros H.
    apply (proj1 (elin_digit_count_checked "eth0"
                    "01234567890123456789012345" (Hne _ _)) eq_refl) in H.
    simpl in H. lia.
Defined.

End Elin.

(** ** The claim about the coordinate rules *)

Section Coordinates.
Import Py Re Lldp Verify Terms Accepted ReShapes TextFacts.

Lemma in_range_single (c x : ascii) : in_range c (x, x) = Ascii.eqb c x.
Proof.
  unfold in_range. cbn [fst snd]. destruct (Ascii.eqb_spec c x) as [->|Hne].
  - now rewrite Nat.leb_refl.
  - apply andb_false_iff.
    destruct (Nat.leb_spec (nat_of_ascii x) (nat_of_ascii c)) as [H1|H1];
      [|now left].
    destruct (Nat.leb_spec (nat_of_ascii c) (nat_of_ascii x)) as [H2|H2];
      [|now right].
    exfalso. apply Hne.
    rewrite <- (ascii_nat_embedding c), <- (ascii_nat_embedding x).
    f_equal. lia.
Qed.

(** A class of single characters holds the characters it lists. *)
Lemma class_of_letters (letters : string) (c : ascii) :
  in_class c (map (fun x => (x, x)) (list_ascii_of_string letters)) =
  one_of letters c.
Proof.
  unfold in_class, one_of.
  induction (list_ascii_of_string letters) as [|x l IH]; simpl.
  - reflexivity.
  - now rewrite in_range_single, IH.
Qed.

Lemma plus_digits (s : string) :
  all_digits s = true -> s <> EmptyString ->
  lang (Plus digit) (list_ascii_of_string s).
Proof.
  intros Hd Hne. apply plus_class. split.
  - destruct s; [congruence|discriminate].
  - now apply all_digits_class.
Qed.

Lemma number_lang whole frac :
  number_parts whole frac = true ->
  lang re_number (list_ascii_of_string (number_text whole frac)).
Proof.
  unfold number_parts, number_text, re_number. intros H.
  apply andb_true_iff in H as [H Hf]. apply andb_true_iff in H as [Hw Hne].
  apply negb_true_iff, String.eqb_neq in Hne.
  rewrite chars_app. constructor; [now apply plus_digits|].
  destruct frac as [f|].
  - apply andb_true_iff in Hf as [Hf Hfne].
    apply negb_true_iff, String.eqb_neq in Hfne.
    apply lang_alt_l. rewrite chars_app. constructor.
    + constructor. reflexivity.
    + now apply plus_digits.
  - apply lang_alt_r. constructor.
Qed.

(** A number followed by one letter of the class matches
    [^(\d+)(\.\d+)?[letters]$]. *)
Lemma coordinate_text_matches letters whole frac h :
  number_parts whole frac = true ->
  one_of letters h = true ->
  re_match (Seq re_number
                (Class (map (fun x => (x, x))
                            (list_ascii_of_string letters))))
           (coordinate_text whole frac h) = true.
Proof.
  intros Hn Hh. unfold re_match. apply match_to_dollar_lang. left.
  unfold coordinate_text. rewrite chars_app. constructor.
  - now apply number_lang.
  - constructor. now rewrite class_of_letters.
Qed.

(** A match of [^...[letters]$] ends in one of the letters, or in one of
    them and a line feed. *)
Lemma match_ends_in_letter r letters s :
  re_match (Seq r (Class (map (fun x => (x, x))
                              (list_ascii_of_string letters)))) s = true ->
  exists body c,
    one_of letters c = true
    /\ (list_ascii_of_string s = body ++ [c]
        \/ list_ascii_of_string s = (body ++ [c]) ++ [newline]).
Proof.
  unfold re_match. rewrite match_to_dollar_lang.
  intros [H|(s' & Hs & H)];
    apply lang_seq_inv in H as (s1 & s2 & E & _ & H2);
    apply lang_class_inv in H2 as (c & -> & Hc);
    rewrite class_of_letters in Hc; exists s1, c; split; auto.
  right. now rewrite Hs, E.
Qed.

Lemma lacks_letter_no_match r letters s :
  lacks letters s = true ->
  re_match (Seq r (Class (map (fun x => (x, x))
                              (list_ascii_of_string letters)))) s = false.
Proof.
  intros Hl. apply not_true_is_false. intros Hm.
  apply match_ends_in_letter in Hm as (body & c & Hc & Hs).
  unfold lacks in Hl. rewrite forallb_forall in Hl.
  assert (Hin : In c (list_ascii_of_string s)).
  { destruct Hs as [-> | ->]; rewrite ?in_app_iff; simpl; auto. }
  apply Hl in Hin. rewrite Hc in Hin. discriminate.
Qed.

Lemma wrong_letter_no_match r letters body c :
  is_alpha c = true -> one_of letters c = false ->
  re_match (Seq r (Class (map (fun x => (x, x))
                              (list_ascii_of_string letters))))
           (String.append body (String c EmptyString)) = false.
Proof.
  intros Ha Hc. apply not_true_is_false. intros Hm.
  apply match_ends_in_letter in Hm as (b' & c' & Hc' & Hs).
  rewrite chars_app in Hs. cbn [list_ascii_of_string] in Hs.
  destruct Hs as [Hs|Hs]; apply app_inj_tail in Hs as [_ Hs].
  - subst c'. congruence.
  - subst c. discriminate.
Qed.

Lemma verify_one_coordinate name alt dat lat lon :
  lat <> EmptyString -> lon <> EmptyString ->
  verify_one (coordinate_location name
                (mk_coordinate alt (Some lat) (Some lon) dat)) =
  if negb (re_match re_latitude lat)
  then Raise (ConfigError (msg_latitude_invalid name))
  else if negb (re_match re_longitude lon)
  then Raise (ConfigError (msg_longitude_invalid name))
  else
    (if truthy alt
     then require_match alt re_altitude (msg_altitude_invalid name)
     else Ok tt) ;;
    (if truthy dat
     then require_match dat re_datum (msg_datum_invalid name)
     else Ok tt).
Proof.
  intros Hlat Hlon. rewrite verify_one_location.
  unfold verify_location, coordinate_location, verify_coordinate,
    require_match at 1 2.
  cbn [civic_based coordinate_based loc_name latitude longitude altitude
       datum].
  rewrite (truthy_nonempty lat Hlat), (truthy_nonempty lon Hlon).
  cbn [negb].
  destruct (re_match re_latitude lat); [|reflexivity].
  destruct (re_match re_longitude lon); reflexivity.
Qed.

Lemma coordinate_text_nonempty whole frac h :
  coordinate_text whole frac h <> EmptyString.
Proof.
  intros H. apply (f_equal list_ascii_of_string) in H.
  unfold coordinate_text in H. rewrite chars_app in H.
  apply app_eq_nil in H as [_ H]. discriminate.
Qed.

Lemma coordinate_text_lang letters whole frac h :
  number_parts whole frac = true ->
  one_of letters h = true ->
  lang (Seq re_number
            (Class (map (fun x => (x, x)) (list_ascii_of_string letters))))
       (list_ascii_of_string (coordinate_text whole frac h)).
Proof.
  intros Hn Hh. unfold coordinate_text. rewrite chars_app. constructor.
  - now apply number_lang.
  - constructor. now rewrite class_of_letters.
Qed.

Lemma nonempty_text (cs : list ascii) :
  cs <> [] ->
  negb (String.eqb (string_of_list_ascii cs) EmptyString) = true.
Proof.
  intros Hne. apply negb_true_iff, String.eqb_neq. intros E.
  apply (f_equal list_ascii_of_string) in E.
  rewrite list_ascii_of_string_of_list_ascii in E. now apply Hne.
Qed.

Lemma digits_text (cs : list ascii) :
  all_in [("0"%char, "9"%char)] cs ->
  all_digits (string_of_list_ascii cs) = true.
Proof.
  intros H. apply all_digits_class.
  now rewrite list_ascii_of_string_of_list_ascii.
Qed.

Lemma number_lang_inv (cs : list ascii) :
  lang re_number cs ->
  exists whole frac,
    number_parts whole frac = true
    /\ cs = list_ascii_of_string (number_text whole frac).
Proof.
  unfold re_number, digit. intros H.
  apply lang_seq_inv in H as (s1 & s2 & -> & H1 & H2).
  apply plus_class in H1 as [Hne1 Ha1].
  unfold Opt in H2. inversion H2 as [| | | r1 r2 s H3 | r1 r2 s H3 | |]; subst.
  - apply lang_seq_inv in H3 as (p & s3 & -> & Hp & H4).
    apply lang_class_inv in Hp as (c & -> & Hc).
    unfold in_class in Hc. cbn [existsb] in Hc.
    rewrite orb_false_r, in_range_single in Hc.
    apply Ascii.eqb_eq in Hc as ->.
    apply plus_class in H4 as [Hne3 Ha3].
    exists (string_of_list_ascii s1), (Some (string_of_list_ascii s3)).
    split.
    + unfold number_parts.
      now rewrite !digits_text, !nonempty_text.
    + unfold number_text. rewrite !chars_app.
      rewrite !list_ascii_of_string_of_list_ascii. reflexivity.
  - apply lang_eps_inv in H3 as ->.
    exists (string_of_list_ascii s1), None. split.
    + unfold number_parts. now rewrite digits_text, nonempty_text.
    + unfold number_text. rewrite chars_app.
      rewrite list_ascii_of_string_of_list_ascii. reflexivity.
Qed.

(** What [^(\d+)(\.\d+)?[letters]$] accepts, exactly. *)
Lemma coordinate_match_exact letters s :
  re_match (Seq re_number
                (Class (map (fun x => (x, x))
                            (list_ascii_of_string letters)))) s = true <->
  coordinate_value letters s.
Proof.
  unfold re_match. rewrite match_to_dollar_lang. split.
  - assert (Hbody : forall cs,
               lang (Seq re_number
                         (Class (map (fun x => (x, x))
                                     (list_ascii_of_string letters)))) cs ->
               exists whole frac h,
                 number_parts whole frac = true /\ one_of letters h = true
                 /\ cs = list_ascii_of_string (coordinate_text whole frac h)).
    { intros cs H. apply lang_seq_inv in H as (s1 & s2 & -> & H1 & H2).
      apply lang_class_inv in H2 as (h & -> & Hh).
      rewrite class_of_letters in Hh.
      apply number_lang_inv in H1 as (whole & frac & Hn & ->).
      exists whole, frac, h. repeat split; auto.
      unfold coordinate_text. now rewrite chars_app. }
    intros [H|(s' & Hs & H)];
      apply Hbody in H as (whole & frac & h & Hn & Hh & E);
      exists whole, frac, h; repeat split; auto.
    + left. now apply chars_inj.
    + right. apply chars_inj. rewrite chars_app, Hs, E. reflexivity.
  - intros (whole & frac & h & Hn & Hh & [->| ->]).
    + left. now apply coordinate_text_lang.
    + right. exists (list_ascii_of_string (coordinate_text whole frac h)).
      rewrite chars_app. split; [reflexivity|].
      now apply coordinate_text_lang.
Qed.

Lemma coordinate_value_nonempty letters : ~ coordinate_value letters EmptyString.
Proof.
  intros (whole & frac & h & _ & _ & [E|E]).
  - symmetry in E. now apply coordinate_text_nonempty in E.
  - apply (f_equal list_ascii_of_string) in E. rewrite chars_app in E.
    symmetry in E. apply app_eq_nil in E as [_ E]. discriminate.
Qed.

(** C7 fails on the code in one direction.  For a record with coordinate
    data and no civic data: an empty or missing longitude, then an empty or
    missing latitude, is rejected; a latitude made of a number, an optional
    fractional part and one trailing N or S in either case is accepted (so
    '45.5N' is), and so is a longitude of that shape ending in E or W; a
    latitude with no hemisphere letter ('45.5') or ending in another letter
    ('45.5Z') is rejected, and symmetrically a longitude that lacks E or W
    or ends in another letter.  But the accepted values are exactly those
    of that shape and also such a value followed by one line feed: the
    longitude '10.25E' and a line feed is accepted although it does not end
    in E or W. *)
Theorem coordinate_hemisphere_checked (name : string) :
  (forall co, truthy (longitude co) = false ->
              verify_one (coordinate_location name co) =
              Raise (ConfigError (msg_longitude_missing name)))
  /\ (forall co, truthy (longitude co) = true ->
                 truthy (latitude co) = false ->
                 verify_one (coordinate_location name co) =
                 Raise (ConfigError (msg_latitude_missing name)))
  /\ (forall w1 f1 h1 w2 f2 h2,
        number_parts w1 f1 = true -> one_of "nNsS" h1 = true ->
        number_parts w2 f2 = true -> one_of "eEwW" h2 = true ->
        verify_one (coordinate_location name
                      (lat_lon (coordinate_text w1 f1 h1)
                               (coordinate_text w2 f2 h2))) = Ok tt)
  /\ (forall alt dat lat lon,
        lat <> EmptyString -> lon <> EmptyString ->
        (lacks "nNsS" lat = true
         \/ exists body c, lat = String.append body (String c EmptyString)
                           /\ is_alpha c = true
                           /\ one_of "nNsS" c = false) ->
        verify_one (coordinate_location name
                      (mk_coordinate alt (Some lat) (Some lon) dat)) =
        Raise (ConfigError (msg_latitude_invalid name)))
  /\ (forall alt dat w1 f1 h1 lon,
        number_parts w1 f1 = true -> one_of "nNsS" h1 = true ->
        lon <> EmptyString ->
        (lacks "eEwW" lon = true
         \/ exists body c, lon = String.append body (String c EmptyString)
                           /\ is_alpha c = true
                           /\ one_of "eEwW" c = false) ->
        verify_one (coordinate_location name
                      (mk_coordinate alt (Some (coordinate_text w1 f1 h1))
                                     (Some lon) dat)) =
        Raise (ConfigError (msg_longitude_invalid name)))
  /\ verify_one (coordinate_location name (lat_lon "45.5N" "10.25e")) =
     Ok tt
  /\ verify_one (coordinate_location name (lat_lon "45.5" "10.25e")) =
     Raise (ConfigError (msg_latitude_invalid name))
  /\ verify_one (coordinate_location name (lat_lon "45.5Z" "10.25e")) =
     Raise (ConfigError (msg_latitude_invalid name))
  /\ verify_one (coordinate_location name
                   (lat_lon "45.5N" (String.append "10.25E" nl))) = Ok tt
  /\ (forall lat lon,
        verify_one (coordinate_location name (lat_lon lat lon)) = Ok tt <->
        coordinate_value "nNsS" lat /\ coordinate_value "eEwW" lon).
Proof.
  repeat match goal with |- _ /\ _ => split end; try reflexivity.
  - intros co H. rewrite verify_one_location.
    unfold verify_location, coordinate_location, verify_coordinate.
    cbn [civic_based coordinate_based loc_name]. now rewrite H.
  - intros co H1 H2. rewrite verify_one_location.
    unfold verify_location, coordinate_location, verify_coordinate.
    cbn [civic_based coordinate_based loc_name]. now rewrite H1, H2.
  - intros w1 f1 h1 w2 f2 h2 Hn1 Hh1 Hn2 Hh2. unfold lat_lon.
    rewrite verify_one_coordinate by apply coordinate_text_nonempty.
    assert (E1 : re_match re_latitude (coordinate_text w1 f1 h1) = true)
      by exact (coordinate_text_matches "nNsS" w1 f1 h1 Hn1 Hh1).
    assert (E2 : re_match re_longitude (coordinate_text w2 f2 h2) = true)
      by exact (coordinate_text_matches "eEwW" w2 f2 h2 Hn2 Hh2).
    rewrite E1, E2. reflexivity.
  - intros alt dat lat lon Hlat Hlon Hbad.
    rewrite verify_one_coordinate by assumption.
    replace (re_match re_latitude lat) with false; [reflexivity|].
    symmetry. destruct Hbad as [Hl|(body & c & -> & Ha & Hc)].
    + exact (lacks_letter_no_match re_number "nNsS" lat Hl).
    + exact (wrong_letter_no_match re_number "nNsS" body c Ha Hc).
  - intros alt dat w1 f1 h1 lon Hn1 Hh1 Hlon Hbad.
    rewrite verify_one_coordinate
      by (try apply coordinate_text_nonempty; assumption).
    assert (E1 : re_match re_latitude (coordinate_text w1 f1 h1) = true)
      by exact (coordinate_text_matches "nNsS" w1 f1 h1 Hn1 Hh1).
    rewrite E1. cbn [negb].
    replace (re_match re_longitude lon) with false; [reflexivity|].
    symmetry. destruct Hbad as [Hl|(body & c & -> & Ha & Hc)].
    + exact (lacks_letter_no_match re_number "eEwW" lon Hl).
    + exact (wrong_letter_no_match re_number "eEwW" body c Ha Hc).
  - intros lat lon.
    destruct (String.eqb_spec lon EmptyString) as [->|Hlon].
    { split.
      - rewrite verify_one_location. discriminate.
      - intros [_ H]. now apply coordinate_value_nonempty in H. }
    destruct (String.eqb_spec lat EmptyString) as [->|Hlat].
    { split.
      - rewrite verify_one_location.
        unfold verify_location, coordinate_location, verify_coordinate,
          lat_lon.
        cbn [civic_based coordinate_based loc_name longitude latitude].
        rewrite (truthy_nonempty lon Hlon). discriminate.
      - intros [H _]. now apply coordinate_value_nonempty in H. }
    unfold lat_lon. rewrite verify_one_coordinate by assumption.
    rewrite <- (coordinate_match_exact "nNsS" lat).
    rewrite <- (coordinate_match_exact "eEwW" lon).
    change (Seq re_number
                (Class (map (fun x => (x, x))
                            (list_ascii_of_string "nNsS")))) with re_latitude.
    change (Seq re_number
                (Class (map (fun x => (x, x))
                            (list_ascii_of_string "eEwW")))) with re_longitude.
    destruct (re_match re_latitude lat), (re_match re_longitude lon);
      cbn [negb truthy Py.bind]; split;
      try discriminate; try (intros [? ?]; discriminate); auto.
Qed.

Lemma coordinate_hemisphere_checked_witness :
  verify_one (coordinate_location "eth0"
                (mk_coordinate None (Some "45.5N") None None)) =
  Raise (ConfigError (msg_longitude_missing "eth0"))
  /\ verify_one (coordinate_location "eth0"
                   (mk_coordinate None (Some "") (Some "10.25e") None)) =
     Raise (ConfigError (msg_latitude_missing "eth0"))
  /\ verify_one (coordinate_location "eth0" (lat_lon "45.5N" "10.25e")) =
     Ok tt
  /\ verify_one (coordinate_location "eth0" (lat_lon "45.5" "10.25e")) =
     Raise (ConfigError (msg_latitude_invalid "eth0"))
  /\ verify_one (coordinate_location "eth0" (lat_lon "45.5Z" "10.25e")) =
     Raise (ConfigError (msg_latitude_invalid "eth0"))
  /\ verify_one (coordinate_location "eth0" (lat_lon "45.5N" "10.25")) =
     Raise (ConfigError (msg_longitude_invalid "eth0"))
  /\ verify_one (coordinate_location "eth0" (lat_lon "45.5N" "10.25Q")) =
     Raise (ConfigError (msg_longitude_invalid "eth0")).
Proof.
  pose proof (coordinate_hemisphere_checked "eth0")
    as (H1 & H2 & H3 & H4 & H5 & _).
  repeat match goal with |- _ /\ _ => split end.
  - apply H1. reflexivity.
  - apply H2; reflexivity.
  - apply (H3 "45" (Some "5") "N"%char "10" (Some "25") "e"%char);
      reflexivity.
  - apply H4; [discriminate|discriminate|]. left. reflexivity.
  - apply H4; [discriminate|discriminate|]. right.
    exists "45.5", "Z"%char. repeat split.
  - apply (H5 None None "45" (Some "5") "N"%char "10.25");
      [reflexivity|reflexivity|discriminate|]. left. reflexivity.
  - apply (H5 None None "45" (Some "5") "N"%char "10.25Q");
      [reflexivity|reflexivity|discriminate|]. right.
    exists "10.25", "Q"%char. repeat split.
Defined.

End Coordinates.

(** * Further properties of the script *)

(** ** The extractors, from any scope *)

Module ReadingFacts.
Import Config Lldp Terms Reading ConfigFacts LocationFacts.

Lemma get_options_reads tr c :
  tree c = tr ->
  fst (get_options c) = options_of tr /\ tree (snd (get_options c)) = tr.
Proof.
  intros Hc. destruct c as [tr' lv]. cbn [tree] in Hc. subst tr'.
  unfold options_of, legacy, present, value_at, get_options, service_lldp.
  unfold bind, set_level, exists_, return_value, ret.
  cbn [app fst snd tree level].
  destruct (lookup ["service"; "lldp"; "snmp"; "enable"] tr);
    cbn [app fst snd tree level]; split; reflexivity.
Qed.

Lemma interface_reads tr name c :
  tree c = tr ->
  fst ((set_level (service_lldp ++ ["interface"; name]) >>
        let* disable := exists_ ["disable"] in
        ret (mk_interface name disable)) c) = interface_of tr name
  /\ tree (snd ((set_level (service_lldp ++ ["interface"; name]) >>
                 let* disable := exists_ ["disable"] in
                 ret (mk_interface name disable)) c)) = tr.
Proof.
  intros Hc. destruct c as [tr' lv]. cbn [tree] in Hc. subst tr'.
  unfold interface_of, interface_path, present, service_lldp.
  unfold bind, set_level, exists_, ret. cbn [app fst snd tree level].
  split; reflexivity.
Qed.

Lemma get_interface_list_reads tr c :
  tree c = tr ->
  exists c', get_interface_list c = (IntfList (interfaces_of tr), c')
             /\ tree c' = tr.
Proof.
  intros Hc. destruct c as [tr' lv]. cbn [tree] in Hc. subst tr'.
  unfold interfaces_of, declared_interfaces, get_interface_list, service_lldp.
  unfold bind at 1 2. unfold set_level, list_nodes.
  cbn [app fst snd tree level].
  set (names := match lookup ["service"; "lldp"; "interface"] tr with
                | Some n => map fst (children n)
                | None => []
                end).
  destruct (Z.of_nat (length names) <? 0)%Z eqn:Hlen.
  { apply Z.ltb_lt in Hlen. lia. }
  unfold bind at 1.
  match goal with
  | |- context [map_m ?body names ?c0] =>
      destruct (map_m body names c0) as [ifs c'] eqn:E;
      pose proof (map_m_reads body (interface_of tr) tr
                    (interface_reads tr) names c0 eq_refl) as [H1 H2];
      rewrite E in H1, H2
  end.
  cbn [fst snd] in H1, H2. unfold ret. exists c'. rewrite H1. auto.
Qed.

Lemma get_location_reads tr c :
  tree c = tr ->
  exists c', get_location c = (locations_of tr, c') /\ tree c' = tr.
Proof.
  intros Hc. destruct c as [tr' lv]. cbn [tree] in Hc. subst tr'.
  unfold locations_of, present, declared_interfaces, get_location,
    service_lldp.
  unfold bind at 1 2. unfold set_level, list_nodes.
  cbn [app fst snd tree level].
  set (names := match lookup ["service"; "lldp"; "interface"] tr with
                | Some n => map fst (children n)
                | None => []
                end).
  destruct (Z.of_nat (length names) <? 0)%Z eqn:Hlen.
  { apply Z.ltb_lt in Hlen. lia. }
  unfold bind at 1. unfold exists_ at 1. cbn [app fst snd tree level].
  destruct (lookup ["service"; "lldp"; "disable"] tr).
  { eexists. split; reflexivity. }
  unfold bind.
  destruct (map_m get_location_intf names
                  {| tree := tr; level := ["service"; "lldp"] |})
    as [es c'] eqn:E.
  pose proof (map_m_reads get_location_intf (entry_of tr) tr
                (get_location_intf_reads tr) names
                {| tree := tr; level := ["service"; "lldp"] |} eq_refl)
    as [H1 H2].
  rewrite E in H1, H2. cbn [fst snd] in H1, H2.
  unfold ret. exists c'. rewrite H1. auto.
Qed.

Lemma get_config_reads tr :
  get_config tr =
  if present service_lldp tr
  then Some (mk_lldp (options_of tr) (IntfList (interfaces_of tr))
                     (locations_of tr))
  else None.
Proof.
  unfold get_config, run, present, service_lldp.
  unfold bind at 1. unfold exists_ at 1, new.
  cbn [app fst snd tree level].
  destruct (lookup ["service"; "lldp"] tr); [|reflexivity].
  cbn [negb]. unfold bind.
  destruct (get_options {| tree := tr; level := [] |}) as [o c1] eqn:E1.
  pose proof (get_options_reads tr {| tree := tr; level := [] |} eq_refl)
    as [Ho Hc1].
  rewrite E1 in Ho, Hc1. cbn [fst snd] in Ho, Hc1.
  destruct (get_interface_list_reads tr c1 Hc1) as (c2 & E2 & Hc2).
  rewrite E2.
  destruct (get_location_reads tr c2 Hc2) as (c3 & E3 & _).
  rewrite E3. rewrite Ho. reflexivity.
Qed.

End ReadingFacts.

(** ** From the configuration to the model, and to the verdict *)

Section FromConfiguration.
Import Py Lldp Verify Script Terms Reading ReadingFacts.

(** [get_interface_list] never returns the integer 0: it returns one entry
    per interface declared under [service lldp interface], in declaration
    order, each with the interface's name and whether [disable] exists below
    it. *)
Theorem get_interface_list_lists_all (tr : Config.node) :
  Config.run get_interface_list (Config.new tr) =
  IntfList (map (fun name =>
                   mk_interface name
                     (present (service_lldp ++ ["interface"; name; "disable"])
                              tr))
                (declared_interfaces tr)).
Proof.
  unfold Config.run.
  destruct (get_interface_list_reads tr (Config.new tr) eq_refl)
    as (c' & E & _).
  rewrite E. reflexivity.
Qed.

(** [get_config] is null exactly when [service lldp] is absent; otherwise
    the three parts of the model are what the three extractors read from the
    configuration, each independently of the scope the previous one left
    behind. *)
Theorem get_config_assembles (tr : Config.node) :
  get_config tr =
  if present service_lldp tr
  then Some (mk_lldp (Config.run get_options (Config.new tr))
                     (Config.run get_interface_list (Config.new tr))
                     (Config.run get_location (Config.new tr)))
  else None.
Proof.
  rewrite get_config_reads. destruct (present service_lldp tr); [|reflexivity].
  unfold Config.run.
  destruct (get_options_reads tr (Config.new tr) eq_refl) as [-> _].
  destruct (get_interface_list_reads tr (Config.new tr) eq_refl)
    as (c1 & -> & _).
  destruct (get_location_reads tr (Config.new tr) eq_refl) as (c2 & -> & _).
  reflexivity.
Qed.

(** [get_options] reads the flags of the service from their places in the
    tree whatever the SNMP branch does to the scope: the legacy protocols
    under [service lldp legacy-protocols], the system-wide SNMP flag at the
    root and only when [snmp enable] is set; the description starts as
    'unknown' and the listen list empty. *)
Theorem get_options_reads_flags (tr : Config.node) :
  Config.run get_options (Config.new tr) =
  mk_options
    (present ["service"; "lldp"; "listen-vlan"] tr)
    (value_at ["service"; "lldp"; "management-address"] tr)
    (present ["service"; "lldp"; "snmp"; "enable"] tr)
    (if present ["service"; "lldp"; "snmp"; "enable"] tr
     then Some (present ["service"; "snmp"] tr) else None)
    (present ["service"; "lldp"; "legacy-protocols"; "cdp"] tr)
    (present ["service"; "lldp"; "legacy-protocols"; "edp"] tr)
    (present ["service"; "lldp"; "legacy-protocols"; "fdp"] tr)
    (present ["service"; "lldp"; "legacy-protocols"; "sonmp"] tr)
    "unknown" [].
Proof.
  unfold Config.run.
  destruct (get_options_reads tr (Config.new tr) eq_refl) as [-> _].
  reflexivity.
Qed.

Lemma entry_of_record tr name loc :
  entry_of tr name = EntryLoc loc ->
  loc = blank_location name /\ has_location tr name = false.
Proof.
  unfold entry_of. destruct (has_location tr name); [discriminate|].
  intros H. injection H as <-. auto.
Qed.

(** When [get_location] returns a list, no record in it carries location
    data: each record has empty civic and coordinate data and no elin, and
    belongs to a declared interface that has no [location] subtree.  The
    civic, elin and coordinate values of the configuration are never
    extracted. *)
Theorem get_location_extracts_no_data
        (tr : Config.node) (es : list entry) (loc : location) :
  Config.run get_location (Config.new tr) = LocList es ->
  In (EntryLoc loc) es ->
  civic_based loc = None /\ elin loc = None /\ coordinate_based loc = None
  /\ In (loc_name loc) (declared_interfaces tr)
  /\ has_location tr (loc_name loc) = false.
Proof.
  unfold Config.run.
  destruct (get_location_reads tr (Config.new tr) eq_refl) as (c' & -> & _).
  unfold locations_of. cbn [fst].
  destruct (present (service_lldp ++ ["disable"]) tr); [discriminate|].
  intros H Hin. injection H as <-.
  apply in_map_iff in Hin as (name & Hname & Hin).
  apply entry_of_record in Hname as [-> Hno]. auto.
Qed.

Lemma get_location_extracts_no_data_witness :
  civic_based (blank_location "eth1") = None
  /\ elin (blank_location "eth1") = None
  /\ coordinate_based (blank_location "eth1") = None
  /\ In "eth1" (declared_interfaces config_two_interfaces)
  /\ has_location config_two_interfaces "eth1" = false.
Proof.
  apply (get_location_extracts_no_data config_two_interfaces
           [EntryInt 0; EntryLoc (blank_location "eth1")]
           (blank_location "eth1")).
  - reflexivity.
  - right. left. reflexivity.
Defined.

Lemma verify_entries tr names :
  for_each verify_location (map (entry_of tr) names) =
  if existsb (has_location tr) names then Raise TypeError else Ok tt.
Proof.
  induction names as [|name names IH]; [reflexivity|].
  cbn [map for_each existsb]. unfold entry_of at 1.
  destruct (has_location tr name); [reflexivity|].
  cbn [verify_location blank_location civic_based coordinate_based elin
       truthy Py.bind orb]. exact IH.
Qed.

Lemma verify_options_of tr :
  verify_options (options_of tr) =
  if snmp_unbacked tr then Raise (ConfigError msg_snmp) else Ok tt.
Proof.
  unfold verify_options, options_of, snmp_unbacked. cbn [snmp sys_snmp].
  destruct (present (service_lldp ++ ["snmp"; "enable"]) tr); [|reflexivity].
  destruct (present ["service"; "snmp"] tr); reflexivity.
Qed.

Lemma verdict_of_configuration tr :
  verify (get_config tr) =
  if negb (present service_lldp tr) then Ok tt
  else if present (service_lldp ++ ["disable"]) tr then Raise TypeError
  else if some_location tr then Raise TypeError
  else if snmp_unbacked tr then Raise (ConfigError msg_snmp)
  else Ok tt.
Proof.
  rewrite get_config_reads.
  destruct (present service_lldp tr); [|reflexivity]. cbn [negb].
  unfold verify, locations_of, some_location. cbn [location_list opts].
  destruct (present (service_lldp ++ ["disable"]) tr); [reflexivity|].
  cbn [verify_locations]. rewrite verify_entries.
  destruct (existsb (has_location tr) (declared_interfaces tr));
    [reflexivity|].
  cbn [Py.bind]. apply verify_options_of.
Qed.

(** The verdict of [verify] on the model of any configuration: nothing to
    check without the service; a type error when the service has a [disable]
    node or when any declared interface has a [location] subtree; otherwise
    the SNMP error when [snmp enable] is set without [service snmp]; and
    success in all other cases.  No location rule can fail on a model that
    [get_config] built. *)
Theorem verify_of_configuration (tr : Config.node) :
  verify (get_config tr) =
  if negb (present service_lldp tr) then Ok tt
  else if present (service_lldp ++ ["disable"]) tr then Raise TypeError
  else if some_location tr then Raise TypeError
  else if snmp_unbacked tr then Raise (ConfigError msg_snmp)
  else Ok tt.
Proof. exact (verdict_of_configuration tr). Qed.

(** Configuring a location on any interface makes the invocation end on an
    uncaught type error: nothing is printed, written or run. *)
Theorem location_subtree_crashes_invocation
        (tr : Config.node) (name : string) (w : world) :
  present service_lldp tr = true ->
  In name (declared_interfaces tr) ->
  has_location tr name = true ->
  main tr w = (Uncaught TypeError, w).
Proof.
  intros Hs Hin Hloc.
  assert (Hv : verify (get_config tr) = Raise TypeError).
  { rewrite verdict_of_configuration. rewrite Hs. cbn [negb].
    destruct (present (service_lldp ++ ["disable"]) tr); [reflexivity|].
    replace (some_location tr) with true; [reflexivity|].
    symmetry. apply existsb_exists. eauto. }
  unfold main. rewrite Hv. reflexivity.
Qed.

End FromConfiguration.

(** ** Rendering: the two files for any options *)

Module RenderFacts.
Import Py Lldp Script Terms Texts.

Lemma append_assoc (a b c : string) :
  String.append (String.append a b) c = String.append a (String.append b c).
Proof.
  induction a as [|x a IH].
  - reflexivity.
  - change (String.append (String.append (String x a) b) c)
      with (String x (String.append (String.append a b) c)).
    rewrite IH. reflexivity.
Qed.

Lemma add_listen_on_fields o l :
  add_listen_on o l =
  mk_options (listen_vlan o) (addr o) (snmp o) (sys_snmp o)
             (cdp o) (edp o) (fdp o) (sonmp o) (description o)
             (listen_on o ++ map listen_entry l).
Proof.
  unfold add_listen_on. revert o.
  induction l as [|i l IH]; intros o; cbn [fold_left map].
  - rewrite app_nil_r. destruct o; reflexivity.
  - rewrite IH. unfold append_listen_on.
    cbn [listen_vlan addr snmp sys_snmp cdp edp fdp sonmp description
         listen_on].
    rewrite <- app_assoc. reflexivity.
Qed.

Lemma render_launch o :
  Jinja.render (context_of o) (Jinja.Template lldp_tmpl) = launch_text o.
Proof.
  change (Jinja.Template lldp_tmpl)
    with [ Jinja.Text (cat [nl; header_line; nl; "DAEMON_ARGS="; dq; "-M4"]);
           Jinja.If "snmp" [Jinja.Text " -x"];
           Jinja.If "addr" [Jinja.Text " -m "; Jinja.Var "addr"];
           Jinja.If "cdp" [Jinja.Text " -c"];
           Jinja.If "edp" [Jinja.Text " -e"];
           Jinja.If "fdp" [Jinja.Text " -f"];
           Jinja.If "sonmp" [Jinja.Text " -s"];
           Jinja.Text (String.append dq nl) ].
  cbn [Jinja.render Jinja.render_node].
  change (context_of o "snmp") with (Jinja.VBool (snmp o)).
  change (context_of o "cdp") with (Jinja.VBool (cdp o)).
  change (context_of o "edp") with (Jinja.VBool (edp o)).
  change (context_of o "fdp") with (Jinja.VBool (fdp o)).
  change (context_of o "sonmp") with (Jinja.VBool (sonmp o)).
  change (context_of o "addr")
    with (match addr o with
          | Some a => Jinja.VStr a
          | None => Jinja.VNone
          end).
  unfold launch_text, daemon_args, addr_flag, flag, cat.
  cbn [fold_right Jinja.truthy].
  destruct (addr o) as [a|]; cbn [Jinja.truthy Jinja.to_text];
    [destruct (String.eqb a EmptyString)|];
    destruct (snmp o), (cdp o), (edp o), (fdp o), (sonmp o);
    cbn [negb]; rewrite ?append_assoc; reflexivity.
Qed.

Lemma render_native o :
  Jinja.render (context_of o) (Jinja.Template vyos_tmpl) =
  native_text_of (description o) (listen_on o).
Proof.
  change (Jinja.Template vyos_tmpl)
    with [ Jinja.Text
             (cat [ nl; header_line; nl; nl; "configure system platform VyOS";
                    nl; "configure system description "; dq; "VyOS " ]);
           Jinja.Var "description";
           Jinja.Text (String.append dq nl);
           Jinja.If "listen_on"
             [ Jinja.Text
                 (String.append nl
                    (String.append "configure system interface pattern " dq));
               Jinja.Join "listen_on" ",";
               Jinja.Text (String.append dq nl) ];
           Jinja.Text nl ].
  cbn [Jinja.render Jinja.render_node].
  change (context_of o "description") with (Jinja.VStr (description o)).
  change (context_of o "listen_on") with (Jinja.VList (listen_on o)).
  unfold native_text_of, pattern_block, pattern_line, cat.
  cbn [fold_right Jinja.truthy Jinja.to_text Jinja.join_filter].
  destruct (listen_on o) as [|e es]; rewrite ?append_assoc; reflexivity.
Qed.

Lemma generate_succeeds m l w tmp d :
  files w !! version_file = Some tmp ->
  Py.split tmp !! 1%nat = Some d ->
  interface_list m = IntfList l ->
  generate (Some m) w = (Ok (Some (generated_model m d l)),
                         generated_world m d l w).
Proof.
  intros Hv Hd Hl. unfold generate, generated_model, generated_world.
  rewrite Hv, Hd, Hl. reflexivity.
Qed.

End RenderFacts.

(** ** Generating, applying, and the whole invocation *)

Section Generation.
Import Py Lldp Verify Script Terms Reading ReadingFacts Texts RenderFacts.

(** [generate] on a model needs the version file and its second word: when
    the file is missing it raises the file-not-found error, when it has
    fewer than two words the index error, and in both cases nothing has been
    written. *)
Theorem generate_needs_version_words (m : lldp) (w : world) :
  (files w !! version_file = None ->
   generate (Some m) w = (Raise FileNotFoundError, w))
  /\ (forall tmp, files w !! version_file = Some tmp ->
                  (length (Py.split tmp) < 2)%nat ->
                  generate (Some m) w = (Raise IndexError, w)).
Proof.
  split.
  - intros H. unfold generate. rewrite H. reflexivity.
  - intros tmp H Hlen. unfold generate. rewrite H.
    rewrite (proj2 (lookup_ge_None (Py.split tmp) 1)); [reflexivity|lia].
Qed.

Lemma generate_needs_version_words_witness :
  generate (Some (two_interface_model false (LocList []))) empty_world
  = (Raise FileNotFoundError, empty_world)
  /\ generate (Some (two_interface_model false (LocList [])))
              (mk_world {[version_file := "1.2.0"]} [] [])
     = (Raise IndexError, mk_world {[version_file := "1.2.0"]} [] []).
Proof.
  split.
  - apply (proj1 (generate_needs_version_words
                    (two_interface_model false (LocList [])) empty_world)).
    reflexivity.
  - apply (proj2 (generate_needs_version_words
                    (two_interface_model false (LocList []))
                    (mk_world {[version_file := "1.2.0"]} [] []))
             "1.2.0").
    + reflexivity.
    + simpl. lia.
Defined.

(** A successful [generate] writes the two configuration files and nothing
    else: every other file, the issued commands and the output are as
    before.  In the model it sets the description to the second word of the
    version file and appends one listen entry per interface to the listen
    list (so a second call on the same model would list every interface
    twice); interfaces and locations are unchanged. *)
Theorem generate_touches_two_files
        (m : lldp) (l : list interface) (w : world) (tmp d : string) :
  files w !! version_file = Some tmp ->
  Py.split tmp !! 1%nat = Some d ->
  interface_list m = IntfList l ->
  exists m' w',
    generate (Some m) w = (Ok (Some m'), w')
    /\ (forall p, p <> config_file -> p <> vyos_config_file ->
                  files w' !! p = files w !! p)
    /\ commands w' = commands w
    /\ stdout w' = stdout w
    /\ interface_list m' = interface_list m
    /\ location_list m' = location_list m
    /\ description (opts m') = d
    /\ listen_on (opts m') = listen_on (opts m) ++ map listen_entry l.
Proof.
  intros Hv Hd Hl. exists (generated_model m d l), (generated_world m d l w).
  split; [now apply (generate_succeeds m l w tmp d)|].
  unfold generated_model, generated_world, write_file.
  cbn [files commands stdout opts interface_list location_list].
  rewrite add_listen_on_fields. cbn [description listen_on set_description].
  repeat split.
  intros p H1 H2. rewrite lookup_insert_ne by congruence.
  rewrite lookup_insert_ne by congruence. reflexivity.
Qed.

Lemma generate_touches_two_files_witness :
  exists m' w',
    generate (Some (two_interface_model false (LocList []))) version_world
    = (Ok (Some m'), w')
    /\ (forall p, p <> config_file -> p <> vyos_config_file ->
                  files w' !! p = files version_world !! p)
    /\ commands w' = commands version_world
    /\ stdout w' = stdout version_world
    /\ interface_list m' =
       interface_list (two_interface_model false (LocList []))
    /\ location_list m' =
       location_list (two_interface_model false (LocList []))
    /\ description (opts m') = "1.2.0"
    /\ listen_on (opts m') =
       listen_on (opts (two_interface_model false (LocList [])))
       ++ map listen_entry
            [mk_interface "eth0" false; mk_interface "eth1" true].
Proof.
  apply (generate_touches_two_files (two_interface_model false (LocList []))
           [mk_interface "eth0" false; mk_interface "eth1" true]
           version_world "Version: 1.2.0" "1.2.0"); reflexivity.
Defined.

Lemma launch_text_fields o d l :
  launch_text (add_listen_on (set_description d o) l) = launch_text o.
Proof. rewrite add_listen_on_fields. reflexivity. Qed.

(** File 1, for any options: an empty line, the header line, and one
    arguments line [DAEMON_ARGS="-M4..."] with the flags [-x], [-m <addr>],
    [-c], [-e], [-f], [-s] in this order, each present exactly when its
    option is on (the address: set and not empty).  The interfaces, the
    description and the vlan flag do not show in it. *)
Theorem generate_launch_file
        (m : lldp) (l : list interface) (w : world) (tmp d : string) :
  files w !! version_file = Some tmp ->
  Py.split tmp !! 1%nat = Some d ->
  interface_list m = IntfList l ->
  files (snd (generate (Some m) w)) !! config_file =
  Some (cat [ nl; header_line; nl;
              cat [ "DAEMON_ARGS="; dq; "-M4";
                    flag (snmp (opts m)) " -x"; addr_flag (addr (opts m));
                    flag (cdp (opts m)) " -c"; flag (edp (opts m)) " -e";
                    flag (fdp (opts m)) " -f"; flag (sonmp (opts m)) " -s";
                    dq ];
              nl ]).
Proof.
  intros Hv Hd Hl. rewrite (generate_succeeds m l w tmp d Hv Hd Hl).
  unfold generated_world, write_file. cbn [snd files].
  rewrite lookup_insert_ne by discriminate. rewrite lookup_insert_eq.
  rewrite render_launch, launch_text_fields. reflexivity.
Qed.

Lemma generate_launch_file_witness :
  files (snd (generate
                (Some (mk_lldp (mk_options false (Some "10.0.0.1") true
                                  (Some true) true false false true
                                  "unknown" [])
                               (IntfList []) (LocList [])))
                version_world)) !! config_file =
  Some (cat [ nl; header_line; nl;
              cat [ "DAEMON_ARGS="; dq; "-M4"; " -x"; " -m 10.0.0.1";
                    " -c"; ""; ""; " -s"; dq ];
              nl ]).
Proof.
  apply (generate_launch_file
           (mk_lldp (mk_options false (Some "10.0.0.1") true (Some true)
                                true false false true "unknown" [])
                    (IntfList []) (LocList []))
           [] version_world "Version: 1.2.0" "1.2.0"); reflexivity.
Defined.

(** File 2, for any model: the platform line, the description line with the
    second word of the version file, and the interface-pattern line with the
    listen entries comma-joined, [!] before the disabled interfaces, in
    declaration order.  The pattern line is left out when there is no entry
    at all. *)
Theorem generate_native_file
        (m : lldp) (l : list interface) (w : world) (tmp d : string) :
  files w !! version_file = Some tmp ->
  Py.split tmp !! 1%nat = Some d ->
  interface_list m = IntfList l ->
  files (snd (generate (Some m) w)) !! vyos_config_file =
  Some (cat [ nl; header_line; nl; nl; "configure system platform VyOS"; nl;
              "configure system description "; dq; "VyOS "; d; dq; nl;
              match listen_on (opts m) ++ map listen_entry l with
              | [] => EmptyString
              | es => cat [ nl; "configure system interface pattern "; dq;
                            Py.join "," es; dq; nl ]
              end;
              nl ]).
Proof.
  intros Hv Hd Hl. rewrite (generate_succeeds m l w tmp d Hv Hd Hl).
  unfold generated_world, write_file. cbn [snd files].
  rewrite lookup_insert_eq. rewrite render_native, add_listen_on_fields.
  cbn [description listen_on set_description].
  unfold native_text_of, pattern_block, pattern_line, cat.
  destruct (listen_on (opts m) ++ map listen_entry l);
    cbn [fold_right]; rewrite ?append_assoc; reflexivity.
Qed.

Lemma generate_native_file_witness :
  files (snd (generate (Some (mk_lldp plain_options (IntfList [])
                                      (LocList [])))
                       version_world)) !! vyos_config_file =
  Some (cat [ nl; header_line; nl; nl; "configure system platform VyOS"; nl;
              "configure system description "; dq; "VyOS "; "1.2.0"; dq; nl;
              ""; nl ]).
Proof.
  apply (generate_native_file
           (mk_lldp plain_options (IntfList []) (LocList []))
           [] version_world "Version: 1.2.0" "1.2.0"); reflexivity.
Defined.

End Generation.

Section Invocation.
Import Py Lldp Verify Script Terms Reading ReadingFacts Texts RenderFacts.

(** On a configuration that passes validation (service present and not
    disabled, no interface with a location subtree, SNMP backed by the
    system-wide service) and with a usable version file, the invocation
    writes the two files from the configuration, then issues the restart
    command, and exits with status 0; nothing is printed and no other file
    changes.  The listen entries are the declared interfaces in order, each
    preceded by [!] when [disable] exists below it. *)
Theorem invocation_generates_then_restarts
        (tr : Config.node) (w : world) (tmp d : string) :
  present service_lldp tr = true ->
  present (service_lldp ++ ["disable"]) tr = false ->
  some_location tr = false ->
  snmp_unbacked tr = false ->
  files w !! version_file = Some tmp ->
  Py.split tmp !! 1%nat = Some d ->
  exists w',
    main tr w = (Exit 0, w')
    /\ commands w' = commands w ++ ["sudo systemctl restart lldpd.service"]
    /\ stdout w' = stdout w
    /\ files w' !! config_file =
       Some (launch_text (Config.run get_options (Config.new tr)))
    /\ files w' !! vyos_config_file =
       Some (native_text_of d
               (map (fun name =>
                       String.append
                         (if present (service_lldp
                                        ++ ["interface"; name; "disable"]) tr
                          then "!" else EmptyString)
                         name)
                    (declared_interfaces tr)))
    /\ (forall p, p <> config_file -> p <> vyos_config_file ->
                  files w' !! p = files w !! p).
Proof.
  intros Hs Hdis Hloc Hsnmp Hv Hd.
  pose proof (verdict_of_configuration tr) as Hverdict.
  rewrite Hs, Hdis, Hloc, Hsnmp in Hverdict. cbn [negb] in Hverdict.
  pose proof (get_config_reads tr) as Hc. rewrite Hs in Hc.
  set (m := mk_lldp (options_of tr) (IntfList (interfaces_of tr))
                    (locations_of tr)) in Hc.
  exists (system "sudo systemctl restart lldpd.service"
                 (generated_world m d (interfaces_of tr) w)).
  split.
  - unfold main. rewrite Hverdict, Hc.
    rewrite (generate_succeeds m (interfaces_of tr) w tmp d Hv Hd eq_refl).
    reflexivity.
  - unfold system, generated_world, write_file.
    cbn [files commands stdout]. repeat split.
    + rewrite lookup_insert_ne by discriminate. rewrite lookup_insert_eq.
      rewrite render_launch, launch_text_fields. unfold Config.run.
      destruct (get_options_reads tr (Config.new tr) eq_refl) as [-> _].
      reflexivity.
    + rewrite lookup_insert_eq. rewrite render_native, add_listen_on_fields.
      cbn [description listen_on set_description m opts options_of app].
      unfold interfaces_of. rewrite map_map. reflexivity.
    + intros p H1 H2. rewrite lookup_insert_ne by congruence.
      rewrite lookup_insert_ne by congruence. reflexivity.
Qed.

Lemma invocation_generates_then_restarts_witness :
  exists w',
    main (branch [("service", branch [("lldp", branch [("interface", branch
            [("eth0", branch []); ("eth1", branch [("disable", branch [])])])
          ])])]) version_world = (Exit 0, w')
    /\ commands w' = ["sudo systemctl restart lldpd.service"]
    /\ files w' !! vyos_config_file = Some (native_file_text "1.2.0").
Proof.
  destruct (invocation_generates_then_restarts
              (branch [("service", branch [("lldp", branch [("interface",
                 branch [("eth0", branch []);
                         ("eth1", branch [("disable", branch [])])])])])])
              version_world "Version: 1.2.0" "1.2.0"
              eq_refl eq_refl eq_refl eq_refl eq_refl eq_refl)
    as (w' & Hm & Hc & _ & _ & Hf & _).
  exists w'. split; [exact Hm|]. split; [exact Hc|].
  rewrite Hf. reflexivity.
Defined.

(** Removing the service works once.  With [service lldp] absent the
    invocation issues the stop command and deletes file 1, exiting with
    status 0 if the file was there; if it was not, [os.unlink] fails after
    the stop command and the error is not caught.  So a second invocation
    right after a first one always ends on the uncaught error. *)
Theorem removal_invocation_runs_once (tr : Config.node) (w : world) :
  present service_lldp tr = false ->
  main tr w =
  (match files w !! config_file with
   | Some _ => Exit 0
   | None => Uncaught FileNotFoundError
   end,
   mk_world (delete config_file (files w))
            (commands w ++ ["sudo systemctl stop lldpd.service"])
            (stdout w))
  /\ fst (main tr (snd (main tr w))) = Uncaught FileNotFoundError.
Proof.
  intros Hs.
  assert (Hmain : forall w0,
             main tr w0 =
             (match files w0 !! config_file with
              | Some _ => Exit 0
              | None => Uncaught FileNotFoundError
              end,
              mk_world (delete config_file (files w0))
                       (commands w0 ++ ["sudo systemctl stop lldpd.service"])
                       (stdout w0))).
  { intros w0. unfold main. rewrite (get_config_absent tr Hs).
    cbn [verify generate apply]. unfold system. cbn [files commands stdout].
    destruct (files w0 !! config_file) eqn:E; [reflexivity|].
    cbn [handle]. rewrite (delete_id _ _ E). reflexivity. }
  split; [apply Hmain|].
  rewrite (Hmain (snd (main tr w))), (Hmain w). cbn [fst snd files].
  rewrite lookup_delete_eq. reflexivity.
Qed.

Lemma removal_invocation_runs_once_witness :
  main (branch []) (mk_world {[config_file := "x"]} [] []) =
  (Exit 0, mk_world ∅ ["sudo systemctl stop lldpd.service"] [])
  /\ fst (main (branch [])
               (snd (main (branch [])
                          (mk_world {[config_file := "x"]} [] [])))) =
     Uncaught FileNotFoundError.
Proof.
  destruct (removal_invocation_runs_once (branch [])
              (mk_world {[config_file := "x"]} [] []) eq_refl) as [H1 H2].
  split; [|exact H2]. rewrite H1. reflexivity.
Defined.

Lemma location_subtree_crashes_invocation_witness :
  main config_two_interfaces empty_world = (Uncaught TypeError, empty_world).
Proof.
  apply (location_subtree_crashes_invocation config_two_interfaces "eth0"
           empty_world).
  - reflexivity.
  - left. reflexivity.
  - reflexivity.
Defined.

End Invocation.

(** ** The other rules of the validator *)

Module PatternFacts.
Import Py Re Lldp Verify Terms Accepted ReFacts ReShapes TextFacts.

Lemma class_alpha (c : ascii) :
  in_class c [("a"%char, "z"%char); ("A"%char, "Z"%char)] = is_alpha c.
Proof.
  unfold in_class, Re.in_range, is_alpha. cbn [existsb fst snd].
  change (nat_of_ascii "a") with 97%nat. change (nat_of_ascii "z") with 122%nat.
  change (nat_of_ascii "A") with 65%nat. change (nat_of_ascii "Z") with 90%nat.
  rewrite orb_false_r. apply orb_comm.
Qed.

Lemma all_alpha (l : list ascii) :
  all_in [("a"%char, "z"%char); ("A"%char, "Z"%char)] l <->
  forallb is_alpha l = true.
Proof.
  unfold all_in. rewrite forallb_forall, List.Forall_forall.
  split; intros H c Hc; specialize (H c Hc);
    [rewrite <- class_alpha|rewrite class_alpha]; exact H.
Qed.

Lemma re_country_code_accepts (s : string) :
  re_match re_country_code s = two_letter_code s.
Proof.
  apply eq_iff_eq_true. unfold re_match, re_country_code, two_letter_code.
  rewrite match_to_dollar_lang. rewrite (repeat_class _ 2 2) by lia.
  set (cs := list_ascii_of_string s). split.
  - intros [[Hl Ha]|(s' & Hs & H)].
    + apply all_alpha in Ha.
      destruct cs as [|a [|b [|c cs']]]; simpl in Hl; try lia.
      simpl in Ha. now rewrite andb_true_r in Ha.
    + apply (repeat_class _ 2 2) in H as [Hl Ha]; [|lia].
      apply all_alpha in Ha. rewrite Hs.
      destruct s' as [|a [|b [|c s'']]]; simpl in Hl; try lia.
      simpl in Ha. rewrite andb_true_r in Ha. simpl.
      rewrite Ha. reflexivity.
  - destruct cs as [|a [|b [|c [|e cs']]]]; try discriminate.
    + intros H. left. split; [simpl; lia|]. apply all_alpha. simpl.
      now rewrite andb_true_r.
    + intros H. apply andb_true_iff in H as [H Hc].
      apply Ascii.eqb_eq in Hc as ->. right. exists [a; b].
      split; [reflexivity|]. apply (repeat_class _ 2 2); [lia|].
      split; [simpl; lia|]. apply all_alpha. simpl. now rewrite andb_true_r.
Qed.

Lemma class_altitude (c : ascii) :
  in_class c [("-"%char, "-"%char); ("+"%char, "+"%char);
              ("0"%char, "9"%char); ("."%char, "."%char)] = altitude_char c.
Proof.
  unfold in_class, altitude_char, one_of, is_digit.
  cbn [existsb list_ascii_of_string].
  unfold Re.in_range. cbn [fst snd].
  change (nat_of_ascii "0") with 48%nat. change (nat_of_ascii "9") with 57%nat.
  pose proof (in_range_single c "-"%char) as H1.
  pose proof (in_range_single c "+"%char) as H2.
  pose proof (in_range_single c "."%char) as H3.
  unfold Re.in_range in H1, H2, H3. cbn [fst snd] in H1, H2, H3.
  rewrite H1, H2, H3.
  destruct (Ascii.eqb c "-"), (Ascii.eqb c "+"), (Ascii.eqb c ".");
    cbn [orb]; rewrite ?orb_false_r, ?orb_true_r; reflexivity.
Qed.

Lemma all_altitude (l : list ascii) :
  all_in [("-"%char, "-"%char); ("+"%char, "+"%char);
          ("0"%char, "9"%char); ("."%char, "."%char)] l <->
  forallb altitude_char l = true.
Proof.
  unfold all_in. rewrite forallb_forall, List.Forall_forall.
  split; intros H c Hc; specialize (H c Hc);
    [rewrite <- class_altitude|rewrite class_altitude]; exact H.
Qed.

Lemma re_altitude_accepts (s : string) :
  re_match re_altitude s = true <->
  (s <> EmptyString /\ forallb altitude_char (list_ascii_of_string s) = true)
  \/ exists s', s = String.append s' nl /\ s' <> EmptyString
                /\ forallb altitude_char (list_ascii_of_string s') = true.
Proof.
  unfold re_match, re_altitude. rewrite match_to_dollar_lang.
  rewrite plus_class, all_altitude. split.
  - intros [[Hne Ha]|(cs & Hs & H)].
    + left. split; [|exact Ha]. intros ->. now apply Hne.
    + apply plus_class in H as [Hne Ha]. apply all_altitude in Ha.
      right. exists (string_of_list_ascii cs).
      rewrite list_ascii_of_string_of_list_ascii. repeat split; auto.
      * apply chars_inj.
        rewrite chars_app, list_ascii_of_string_of_list_ascii. exact Hs.
      * intros E. apply (f_equal list_ascii_of_string) in E.
        rewrite list_ascii_of_string_of_list_ascii in E. now apply Hne.
  - intros [[Hne Ha]|(s' & -> & Hne & Ha)].
    + left. split; [|exact Ha]. intros E. apply Hne.
      apply chars_inj. exact E.
    + right. exists (list_ascii_of_string s'). rewrite chars_app.
      split; [reflexivity|]. apply plus_class. split.
      * intros E. apply Hne. apply chars_inj. exact E.
      * now apply all_altitude.
Qed.

Lemma lang_alt_inv r1 r2 cs : lang (Alt r1 r2) cs -> lang r1 cs \/ lang r2 cs.
Proof. intros H. inversion H; subst; auto. Qed.

Lemma lit_lang (w : string) (cs : list ascii) :
  lang (Lit w) cs <-> cs = list_ascii_of_string w.
Proof.
  revert cs. induction w as [|c w IH]; intros cs; cbn [Lit list_ascii_of_string].
  - split; [apply lang_eps_inv|intros ->; constructor].
  - split.
    + intros H. apply lang_seq_inv in H as (s1 & s2 & -> & H1 & H2).
      apply lang_class_inv in H1 as (c' & -> & Hc). apply IH in H2 as ->.
      unfold in_class in Hc. cbn [existsb] in Hc.
      rewrite orb_false_r, in_range_single in Hc.
      apply Ascii.eqb_eq in Hc as ->. reflexivity.
    + intros ->. change (c :: list_ascii_of_string w)
        with ([c] ++ list_ascii_of_string w).
      constructor; [|now apply IH]. constructor.
      unfold in_class. cbn [existsb].
      now rewrite orb_false_r, in_range_single, Ascii.eqb_refl.
Qed.

Lemma datum_lang (cs : list ascii) :
  lang re_datum cs <->
  exists d, In d datum_names /\ cs = list_ascii_of_string d.
Proof.
  unfold re_datum, datum_names. split.
  - intros H. apply lang_alt_inv in H as [H|H];
      [|apply lang_alt_inv in H as [H|H]]; apply lit_lang in H.
    + exists "WGS84". simpl. auto.
    + exists "NAD83". simpl. auto.
    + exists "MLLW". simpl. auto.
  - intros (d & [<-|[<-|[<-|[]]]] & ->).
    + apply lang_alt_l. now apply lit_lang.
    + apply lang_alt_r, lang_alt_l. now apply lit_lang.
    + apply lang_alt_r, lang_alt_r. now apply lit_lang.
Qed.

Lemma re_datum_accepts (s : string) : re_match re_datum s = datum_name s.
Proof.
  apply eq_iff_eq_true. unfold re_match, datum_name.
  rewrite match_to_dollar_lang, existsb_exists. split.
  - intros [H|(s' & Hs & H)]; apply datum_lang in H as (d & Hd & E);
      exists d; split; auto; apply orb_true_iff.
    + left. apply String.eqb_eq. now apply chars_inj.
    + right. apply String.eqb_eq. apply chars_inj.
      rewrite chars_app, Hs, E. reflexivity.
  - intros (d & Hd & H). apply orb_true_iff in H as [H|H];
      apply String.eqb_eq in H as ->.
    + left. apply datum_lang. eauto.
    + right. exists (list_ascii_of_string d). rewrite chars_app.
      split; [reflexivity|]. apply datum_lang. eauto.
Qed.

End PatternFacts.

Section MoreRules.
Import Py Re Lldp Verify Terms Accepted VerifyFacts TextFacts PatternFacts.

Lemma verify_one_civic name s cas :
  s <> EmptyString ->
  verify_one (civic_location name s cas) =
  if re_match re_country_code s then for_each (verify_ca_type name) cas
  else Raise (ConfigError (msg_country_code_invalid name)).
Proof.
  intros Hs. rewrite verify_one_location.
  unfold verify_location, civic_location, verify_civic, require_match.
  cbn [civic_based coordinate_based elin loc_name country_code ca_types].
  rewrite (truthy_nonempty s Hs). cbn [truthy orb negb].
  destruct (re_match re_country_code s); cbn [negb Py.bind]; [|reflexivity].
  now rewrite len_not_negative.
Qed.

(** The country code of a civic record: a missing or empty code is rejected
    with 'must configure the country code'; a code of exactly two ASCII
    letters of either case passes on to the ca-type checks (so does such a
    code followed by one line feed); every other code is rejected with
    'country-code must be 2 characters'. *)
Theorem country_code_two_letters (name : string) (cas : list ca_type) :
  (forall cc, truthy cc = false ->
              verify_one (mk_location name (Some (mk_civic cc cas))
                                      None None) =
              Raise (ConfigError (msg_country_code_missing name)))
  /\ (forall s, s <> EmptyString ->
                verify_one (civic_location name s cas) =
                if two_letter_code s
                then for_each (verify_ca_type name) cas
                else Raise (ConfigError (msg_country_code_invalid name))).
Proof.
  split.
  - intros cc Hcc. rewrite verify_one_location.
    unfold verify_location, verify_civic.
    cbn [civic_based coordinate_based elin loc_name country_code truthy orb].
    now rewrite Hcc.
  - intros s Hs. rewrite (verify_one_civic name s cas Hs).
    now rewrite re_country_code_accepts.
Qed.

Lemma country_code_two_letters_witness :
  verify_one (mk_location "eth0" (Some (mk_civic (Some "") [])) None None) =
  Raise (ConfigError (msg_country_code_missing "eth0"))
  /\ verify_one (civic_location "eth0" "de" []) = Ok tt
  /\ verify_one (civic_location "eth0" "DEU" []) =
     Raise (ConfigError (msg_country_code_invalid "eth0"))
  /\ verify_one (civic_location "eth0" "d1" []) =
     Raise (ConfigError (msg_country_code_invalid "eth0")).
Proof.
  destruct (country_code_two_letters "eth0" []) as [H1 H2].
  split; [apply H1; reflexivity|].
  split; [apply (H2 "de"); discriminate|].
  split; [apply (H2 "DEU"); discriminate|apply (H2 "d1"); discriminate].
Defined.

Lemma verify_one_located name alt dat :
  verify_one (coordinate_location name (located alt dat)) =
  ((if truthy alt
    then require_match alt re_altitude (msg_altitude_invalid name)
    else Ok tt) ;;
   (if truthy dat
    then require_match dat re_datum (msg_datum_invalid name)
    else Ok tt)).
Proof.
  unfold located. rewrite verify_one_coordinate by discriminate. reflexivity.
Qed.

(** The altitude of a coordinate record is not parsed as a number: when set
    and not empty it only has to be made of the characters [-], [+], [.] and
    digits, so a value such as '+-.' passes; a value with any other
    character (a final line feed apart) is rejected with 'altitude should be
    a positive or negative number', whatever the datum; a missing or empty
    altitude is not checked. *)
Theorem altitude_is_signs_points_digits (name : string) :
  (forall alt dat, truthy alt = false -> truthy dat = false ->
                   verify_one (coordinate_location name (located alt dat)) =
                   Ok tt)
  /\ (forall s, s <> EmptyString ->
                forallb altitude_char (list_ascii_of_string s) = true ->
                verify_one (coordinate_location name (located (Some s) None))
                = Ok tt)
  /\ (forall s c dat,
        In c (list_ascii_of_string s) -> altitude_char c = false ->
        c <> newline ->
        verify_one (coordinate_location name (located (Some s) dat)) =
        Raise (ConfigError (msg_altitude_invalid name)))
  /\ verify_one (coordinate_location name (located (Some "+-.") None)) =
     Ok tt.
Proof.
  repeat match goal with |- _ /\ _ => split end; [| | |reflexivity].
  - intros alt dat Ha Hd. rewrite verify_one_located, Ha, Hd. reflexivity.
  - intros s Hs Hall. rewrite verify_one_located, (truthy_nonempty s Hs).
    unfold require_match.
    rewrite (proj2 (re_altitude_accepts s)) by (left; auto). reflexivity.
  - intros s c dat Hin Hc Hnl.
    assert (Hs : s <> EmptyString) by (intros ->; contradiction Hin).
    rewrite verify_one_located, (truthy_nonempty s Hs). unfold require_match.
    replace (re_match re_altitude s) with false; [reflexivity|].
    symmetry. apply not_true_is_false. intros Hm.
    apply re_altitude_accepts in Hm as [[_ Hall]|(s' & -> & _ & Hall)];
      rewrite forallb_forall in Hall.
    + apply Hall in Hin. congruence.
    + rewrite chars_app in Hin. apply in_app_iff in Hin as [Hin|Hin].
      * apply Hall in Hin. congruence.
      * destruct Hin as [<-|[]]. now apply Hnl.
Qed.

Lemma altitude_is_signs_points_digits_witness :
  verify_one (coordinate_location "eth0" (located (Some "") None)) = Ok tt
  /\ verify_one (coordinate_location "eth0" (located (Some "-12.5") None)) =
     Ok tt
  /\ verify_one (coordinate_location "eth0"
                   (located (Some "12m") (Some "WGS84"))) =
     Raise (ConfigError (msg_altitude_invalid "eth0")).
Proof.
  destruct (altitude_is_signs_points_digits "eth0") as (H1 & H2 & H3 & _).
  split; [apply H1; reflexivity|].
  split; [apply H2; [discriminate|reflexivity]|].
  apply (H3 "12m" "m"%char).
  - right. right. left. reflexivity.
  - reflexivity.
  - discriminate.
Defined.

(** The datum of a coordinate record, when set and not empty, must be
    exactly WGS84, NAD83 or MLLW in upper case (a final line feed is
    tolerated); anything else is rejected with the datum message; a missing
    or empty datum is not checked. *)
Theorem datum_is_one_of_three (name : string) :
  (forall s alt, truthy alt = false -> s <> EmptyString ->
                 verify_one (coordinate_location name
                               (located alt (Some s))) =
                 if datum_name s then Ok tt
                 else Raise (ConfigError (msg_datum_invalid name)))
  /\ (forall alt dat, truthy alt = false -> truthy dat = false ->
                      verify_one (coordinate_location name (located alt dat))
                      = Ok tt).
Proof.
  split.
  - intros s alt Ha Hs.
    rewrite verify_one_located, Ha, (truthy_nonempty s Hs).
    unfold require_match. rewrite re_datum_accepts.
    destruct (datum_name s); reflexivity.
  - intros alt dat Ha Hd. rewrite verify_one_located, Ha, Hd. reflexivity.
Qed.

Lemma datum_is_one_of_three_witness :
  verify_one (coordinate_location "eth0" (located None (Some "NAD83"))) =
  Ok tt
  /\ verify_one (coordinate_location "eth0" (located None (Some "nad83"))) =
     Raise (ConfigError (msg_datum_invalid "eth0"))
  /\ verify_one (coordinate_location "eth0" (located None (Some ""))) =
     Ok tt.
Proof.
  destruct (datum_is_one_of_three "eth0") as [H1 H2].
  split; [apply (H1 "NAD83" None); [reflexivity|discriminate]|].
  split; [apply (H1 "nad83" None); [reflexivity|discriminate]|].
  apply H2; reflexivity.
Defined.

End MoreRules.

Section Order.
Import Py Re Lldp Verify Terms Accepted VerifyFacts TextFacts.

(** 'Only one location type' is checked for records with civic data only.
    With civic data, coordinate data or a non-empty elin is rejected before
    any other civic rule.  Without civic data, a record with coordinate data
    and an elin is validated as a coordinate record and its elin is never
    looked at. *)
Theorem one_location_type_needs_civic
        (name : string) (cb : civic) (co : coordinate) (e : option string) :
  verify_one (mk_location name (Some cb) e (Some co)) =
  Raise (ConfigError (msg_one_type name))
  /\ (truthy e = true ->
      verify_one (mk_location name (Some cb) e None) =
      Raise (ConfigError (msg_one_type name)))
  /\ verify_one (mk_location name None e (Some co)) =
     verify_one (mk_location name None None (Some co)).
Proof.
  rewrite !verify_one_location. unfold verify_location, verify_civic.
  cbn [civic_based coordinate_based elin loc_name orb].
  repeat split. intros He. now rewrite He.
Qed.

Lemma one_location_type_needs_civic_witness :
  verify_one (mk_location "eth0" (Some (mk_civic (Some "US") []))
                          (Some "0123456789") None) =
  Raise (ConfigError (msg_one_type "eth0"))
  /\ verify_one (mk_location "eth0" None (Some "not an elin")
                             (Some (lat_lon "45.5N" "10.25E"))) = Ok tt.
Proof.
  destruct (one_location_type_needs_civic
              "eth0" (mk_civic (Some "US") []) (lat_lon "45.5N" "10.25E")
              (Some "0123456789")) as (_ & H2 & _).
  destruct (one_location_type_needs_civic
              "eth0" (mk_civic (Some "US") []) (lat_lon "45.5N" "10.25E")
              (Some "not an elin")) as (_ & _ & H3).
  split; [apply H2; reflexivity|]. rewrite H3. reflexivity.
Defined.

(** Validation is fail-fast: when the entries before an entry pass and that
    entry fails, [verify] raises that entry's error, whatever comes after it
    in the list and whatever the options are (the SNMP rule is only reached
    when every location passes). *)
Theorem verify_reports_first_failure
        (o : options) (i : interfaces) (before after : list entry)
        (e : entry) (err : exn) :
  for_each verify_location before = Ok tt ->
  verify_location e = Raise err ->
  verify (Some (mk_lldp o i (LocList (before ++ e :: after)))) = Raise err.
Proof.
  intros Hb He. unfold verify, verify_locations. cbn [location_list opts].
  rewrite (for_each_app_ok _ _ _ Hb). cbn [for_each]. rewrite He.
  reflexivity.
Qed.

Lemma verify_reports_first_failure_witness :
  verify (Some (mk_lldp (mk_options false None true (Some false)
                           false false false false "unknown" [])
                        (IntfList [])
                        (LocList ([EntryLoc (blank_location "eth0")]
                                    ++ EntryLoc (elin_location "eth1" "12")
                                    :: [EntryInt 0])))) =
  Raise (ConfigError (msg_elin_invalid "eth1")).
Proof.
  apply verify_reports_first_failure; reflexivity.
Defined.

Lemma require_match_raises v r invalid e :
  truthy v = true -> require_match v r invalid = Raise e ->
  e = ConfigError invalid.
Proof.
  unfold require_match. destruct v as [s|]; [|discriminate]. intros _.
  destruct (re_match r s); [discriminate|]. intros H. now injection H.
Qed.

Lemma checked_match_raises v r invalid e :
  (if truthy v then require_match v r invalid else Ok tt) = Raise e ->
  e = ConfigError invalid.
Proof.
  destruct (truthy v) eqn:E; [|discriminate]. now apply require_match_raises.
Qed.

Lemma record_raises loc e :
  verify_location (EntryLoc loc) = Raise e ->
  (exists msg, e = ConfigError msg)
  \/ (e = ValueError
      /\ exists cb ca, civic_based loc = Some cb /\ In ca (ca_types cb)
                       /\ Py.int (ca_name ca) = None).
Proof.
  unfold verify_location. destruct (civic_based loc) as [cb|].
  - unfold verify_civic, Py.bind.
    destruct (_ || _); [intros H; injection H as <-; eauto|].
    destruct (truthy (country_code cb)) eqn:Hcc; cbn [negb];
      [|intros H; injection H as <-; eauto].
    destruct (require_match _ _ _) as [[]|e'] eqn:Hm.
    + rewrite len_not_negative. intros H.
      apply for_each_raises in H as (ca & Hin & H).
      unfold verify_ca_type in H.
      destruct (Py.int (ca_name ca)) as [n|] eqn:Hn.
      * destruct (negb (Py.in_range n 0 129));
          [injection H as <-; eauto|].
        destruct (negb (truthy (ca_val ca)));
          [injection H as <-; eauto|discriminate].
      * injection H as <-. right. split; [reflexivity|]. eauto.
    + intros H. injection H as <-.
      apply (require_match_raises _ _ _ _ Hcc) in Hm. eauto.
  - destruct (coordinate_based loc) as [co|].
    + unfold verify_coordinate, Py.bind.
      destruct (truthy (longitude co)) eqn:Hlon; cbn [negb];
        [|intros H; injection H as <-; eauto].
      destruct (truthy (latitude co)) eqn:Hlat; cbn [negb];
        [|intros H; injection H as <-; eauto].
      destruct (require_match (latitude co) _ _) as [[]|e1] eqn:H1;
        [|intros H; injection H as <-;
          apply (require_match_raises _ _ _ _ Hlat) in H1; eauto].
      destruct (require_match (longitude co) _ _) as [[]|e2] eqn:H2;
        [|intros H; injection H as <-;
          apply (require_match_raises _ _ _ _ Hlon) in H2; eauto].
      destruct (if truthy (altitude co) then _ else _) as [[]|e3] eqn:H3;
        [|intros H; injection H as <-;
          apply checked_match_raises in H3; eauto].
      intros H. apply checked_match_raises in H. eauto.
    + intros H. apply checked_match_raises in H. eauto.
Qed.

(** On a model whose location list is a list of records, [verify] returns
    or raises one of three things: the configuration error; the integer
    parse failure, and then some civic record has a ca-type whose identifier
    does not parse; or the key error, and then snmp is on and the model has
    no [sys_snmp] key.  It never raises a type error on such a model. *)
Theorem verify_raises_only
        (m : lldp) (locs : list location) (e : exn) :
  location_list m = LocList (records locs) ->
  verify (Some m) = Raise e ->
  (exists msg, e = ConfigError msg)
  \/ (e = ValueError
      /\ exists loc cb ca, In loc locs /\ civic_based loc = Some cb
                           /\ In ca (ca_types cb)
                           /\ Py.int (ca_name ca) = None)
  \/ (e = KeyError /\ snmp (opts m) = true /\ sys_snmp (opts m) = None).
Proof.
  intros Hl. unfold verify, Py.bind. rewrite Hl. cbn [verify_locations].
  destruct (for_each verify_location (records locs)) as [[]|e'] eqn:E.
  - unfold verify_options. destruct (snmp (opts m)); [|discriminate].
    destruct (sys_snmp (opts m)) as [[]|]; try discriminate.
    + intros H. injection H as <-. left. eauto.
    + intros H. injection H as <-. right. right. repeat split.
  - intros H. injection H as <-.
    apply for_each_raises in E as (x & Hin & Hx).
    apply in_map_iff in Hin as (loc & <- & Hin).
    apply record_raises in Hx as [Hx|(-> & cb & ca & H1 & H2 & H3)];
      [left; exact Hx|].
    right. left. split; [reflexivity|]. exists loc, cb, ca. auto.
Qed.

Lemma verify_raises_only_witness :
  (exists msg, KeyError = ConfigError msg)
  \/ (KeyError = ValueError
      /\ exists loc cb ca, In loc [blank_location "eth0"]
                           /\ civic_based loc = Some cb
                           /\ In ca (ca_types cb)
                           /\ Py.int (ca_name ca) = None)
  \/ (KeyError = KeyError
      /\ snmp (mk_options false None true None false false false false
                          "unknown" []) = true
      /\ sys_snmp (mk_options false None true None false false false false
                              "unknown" []) = None).
Proof.
  apply (verify_raises_only
           (model_of (mk_options false None true None false false false false
                                 "unknown" [])
                     (records [blank_location "eth0"]))
           [blank_location "eth0"] KeyError); reflexivity.
Defined.

(** A ca-type must carry a value: in a civic record that reaches the
    ca-type loop, an entry whose identifier is in range and whose value is
    missing or empty is rejected with 'must configure the ca-value for
    ca-type' followed by the identifier as it was written. *)
Theorem ca_value_required
        (o : options) (before after : list entry) (name cc : string)
        (pre post : list ca_type) (ca : ca_type) (n : Z) :
  for_each verify_location before = Ok tt ->
  re_match re_country_code cc = true ->
  for_each (verify_ca_type name) pre = Ok tt ->
  Py.int (ca_name ca) = Some n -> (0 <= n <= 128)%Z ->
  truthy (ca_val ca) = false ->
  verify (Some (civic_model_at o before after name cc (pre ++ ca :: post))) =
  Raise (ConfigError (msg_ca_value_missing name (ca_name ca))).
Proof.
  intros Hb Hcc Hpre Hn Hr Hv.
  rewrite (verify_at_civic o before after name cc Hb Hcc).
  rewrite (for_each_app_ok _ _ _ Hpre). cbn [for_each].
  unfold verify_ca_type at 1. rewrite Hn, Hv.
  replace (Py.in_range n 0 129) with true; [reflexivity|].
  symmetry. unfold Py.in_range. apply andb_true_iff.
  split; [apply Z.leb_le|apply Z.ltb_lt]; lia.
Qed.

Lemma ca_value_required_witness :
  verify (Some (civic_model_at plain_options [] [] "eth0" "US"
                  ([mk_ca_type "1" (Some "en")]
                     ++ mk_ca_type " 7 " (Some "") :: []))) =
  Raise (ConfigError (msg_ca_value_missing "eth0" " 7 ")).
Proof.
  apply (ca_value_required plain_options [] [] "eth0" "US"
           [mk_ca_type "1" (Some "en")] [] (mk_ca_type " 7 " (Some "")) 7%Z);
    try reflexivity. lia.
Defined.

End Order.

(** ** Rules that are not reached *)

Section NotReached.
Import Py Re Lldp Verify Terms Accepted.

(** C5, as stated, fails in the 'if' direction: with snmp enabled and
    system-wide snmp disabled, a failing location is reported and the SNMP
    error is not raised, be it a configuration error of a location rule or
    the type error of a disabled service. *)
Lemma snmp_error_behind_failing_location :
  snmp snmp_unbacked_options = true
  /\ sys_snmp snmp_unbacked_options = Some false
  /\ verify (Some (model_of snmp_unbacked_options
                            [EntryLoc (elin_location "eth0" "12")])) =
     Raise (ConfigError (msg_elin_invalid "eth0"))
  /\ msg_elin_invalid "eth0" <> msg_snmp
  /\ exists m, get_config config_disabled_snmp = Some m
               /\ snmp (opts m) = true
               /\ sys_snmp (opts m) = Some false
               /\ verify (Some m) = Raise TypeError.
Proof.
  repeat match goal with |- _ /\ _ => split end; try reflexivity.
  - discriminate.
  - eexists. repeat split; reflexivity.
Qed.

(** C6, as stated, fails: a civic record whose ca-type list holds an
    identifier that does not parse still gets the configuration error when
    an earlier check fails first (the country code, or an earlier ca-type
    out of range), and the boundary identifier 128 is rejected when its
    value is missing. *)
Lemma unparsable_identifier_behind_earlier_failure :
  Py.int "abc" = None
  /\ verify_one (civic_location "eth0" "US"
                   [mk_ca_type "200" (Some "x");
                    mk_ca_type "abc" (Some "y")]) =
     Raise (ConfigError (msg_ca_type_range "eth0"))
  /\ verify_one (civic_location "eth0" "USA"
                   [mk_ca_type "abc" (Some "y")]) =
     Raise (ConfigError (msg_country_code_invalid "eth0"))
  /\ Py.int "128" = Some 128%Z
  /\ verify_one (civic_location "eth0" "US" [mk_ca_type "128" None]) =
     Raise (ConfigError (msg_ca_value_missing "eth0" "128")).
Proof. repeat match goal with |- _ /\ _ => split end; reflexivity. Qed.

End NotReached.
